(** * lrgasp.metadata_validate: declarative validation of metadata fields

    A shallow embedding of [lib/lrgasp/metadata_validate.py] and the
    properties of its field-checking engine.

    Python values are modelled by the type [value] below: the values a
    metadata record loaded from JSON holds (None, booleans, integers,
    strings, lists, dictionaries with string keys) and instances of plain
    user classes.  Floating point numbers are left out.  A Python [str] is
    a Rocq [string] with one [ascii] per character, so the strings of the
    model are those over the code points 0..255. *)

From Stdlib Require Import ZArith Ascii String DecimalString Bool.
From stdpp Require Import gmap strings list.

Set Warnings "-register-all".

(** ** Python values *)

Inductive value :=
| VNone
| VBool (b : bool)
| VInt (z : Z)
| VStr (s : string)
| VList (l : list value)
| VDict (d : list (string * value))
| VObj (cls : string) (text : string).
(** [VDict d] keeps the items in insertion order, keys pairwise distinct.
    [VObj cls text] is an instance of the user class [cls] (an enumeration
    member, say) whose [str()] is [text]; such an instance defines neither
    [__len__] nor [__iter__], and two of them are equal when class and text
    agree. *)

(** ** Exceptions *)

(** Exception classes: the built-in ones the module meets, and classes
    derived from them.  [Derived name base] is [class name(base)]. *)
Inductive exn_class :=
| Exception
| ValueError
| TypeError
| AttributeError
| Derived (name : string) (base : exn_class).

(** An exception instance: its class, its message and, after
    [raise ... from ex], its [__cause__]. *)
Inductive exn :=
| Exn (cls : exn_class) (msg : string) (cause : option exn).

Definition exn_cls (e : exn) : exn_class := let 'Exn c _ _ := e in c.
Definition exn_msg (e : exn) : string := let 'Exn _ m _ := e in m.
Definition exn_cause (e : exn) : option exn := let 'Exn _ _ c := e in c.

(** [issubclass(c, ValueError)]: what an [except ValueError] clause catches. *)
Fixpoint is_ValueError (c : exn_class) : bool :=
  match c with
  | ValueError => true
  | Derived _ base => is_ValueError base
  | _ => false
  end.

Fixpoint is_TypeError (c : exn_class) : bool :=
  match c with
  | TypeError => true
  | Derived _ base => is_TypeError base
  | _ => false
  end.

(** The outcome of evaluating a Python expression: a value or a raised
    exception. *)
Inductive result (A : Type) :=
| Ok (a : A)
| Raise (e : exn).
Arguments Ok {A} a.
Arguments Raise {A} e.

Definition bind {A B} (r : result A) (k : A -> result B) : result B :=
  match r with
  | Ok a => k a
  | Raise e => Raise e
  end.

Declare Scope py_scope.
Delimit Scope py_scope with py.
Notation "x <- r ;; k" := (bind r (fun x => k))
  (at level 100, r at next level, right associativity) : py_scope.
Notation "r ;;; k" := (bind r (fun _ => k))
  (at level 100, right associativity) : py_scope.

(** [try: r  except ValueError as ex: handler ex]. *)
Definition try_except_ValueError {A} (r : result A) (handler : exn -> result A)
  : result A :=
  match r with
  | Ok a => Ok a
  | Raise ex => if is_ValueError (exn_cls ex) then handler ex else Raise ex
  end.

(** ** Built-in operations on values *)

Definition dquote : ascii := ascii_of_nat 34.
Definition squote : ascii := ascii_of_nat 39.
Definition backslash : ascii := ascii_of_nat 92.
Definition newline : ascii := ascii_of_nat 10.

Definition str1 (c : ascii) : string := String c EmptyString.

Fixpoint contains_char (c : ascii) (s : string) : bool :=
  match s with
  | EmptyString => false
  | String x s' => Ascii.eqb x c || contains_char c s'
  end.

Definition hex_digit (n : nat) : ascii :=
  if Nat.ltb n 10 then ascii_of_nat (48 + n) else ascii_of_nat (87 + n).

(** [str.isprintable] on the code points 0..255: the control characters,
    the no-break space and the soft hyphen are not printable. *)
Definition isprintable (c : ascii) : bool :=
  let n := nat_of_ascii c in
  negb (Nat.ltb n 32) && negb (Nat.leb 127 n && Nat.leb n 160) && negb (Nat.eqb n 173).

Definition repr_char (quote c : ascii) : string :=
  let n := nat_of_ascii c in
  if Ascii.eqb c backslash then String backslash (str1 backslash)
  else if Ascii.eqb c quote then String backslash (str1 quote)
  else if Nat.eqb n 9 then String backslash "t"
  else if Nat.eqb n 10 then String backslash "n"
  else if Nat.eqb n 13 then String backslash "r"
  else if isprintable c then str1 c
  else String backslash (String "x" (String (hex_digit (n / 16)) (str1 (hex_digit (n mod 16))))).

Fixpoint repr_chars (quote : ascii) (s : string) : string :=
  match s with
  | EmptyString => EmptyString
  | String c s' => repr_char quote c +:+ repr_chars quote s'
  end.

(** [repr(s)] of a string: single quotes, unless the string holds a single
    quote and no double quote. *)
Definition repr_str (s : string) : string :=
  let quote := if contains_char squote s && negb (contains_char dquote s)
               then dquote else squote in
  str1 quote +:+ repr_chars quote s +:+ str1 quote.

Definition str_int (z : Z) : string := NilZero.string_of_int (Z.to_int z).

Fixpoint join (sep : string) (l : list string) : string :=
  match l with
  | [] => ""
  | [x] => x
  | x :: l' => x +:+ sep +:+ join sep l'
  end.

(** [repr(v)]. *)
Fixpoint py_repr (v : value) : string :=
  match v with
  | VNone => "None"
  | VBool true => "True"
  | VBool false => "False"
  | VInt z => str_int z
  | VStr s => repr_str s
  | VList l => "[" +:+ join ", " (map py_repr l) +:+ "]"
  | VDict d =>
      "{" +:+ join ", " (map (fun kv => repr_str (fst kv) +:+ ": " +:+ py_repr (snd kv)) d) +:+ "}"
  | VObj _ text => text
  end.

(** [str(v)], which is what an f-string placeholder [{v}] and [print] show:
    it differs from [repr] on strings only. *)
Definition py_str (v : value) : string :=
  match v with
  | VStr s => s
  | _ => py_repr v
  end.

(** [type(v).__name__]. *)
Definition type_name (v : value) : string :=
  match v with
  | VNone => "NoneType"
  | VBool _ => "bool"
  | VInt _ => "int"
  | VStr _ => "str"
  | VList _ => "list"
  | VDict _ => "dict"
  | VObj cls _ => cls
  end.

(** [len(v)]. *)
Definition py_len (v : value) : result nat :=
  match v with
  | VStr s => Ok (String.length s)
  | VList l => Ok (length l)
  | VDict d => Ok (length d)
  | _ => Raise (Exn TypeError ("object of type '" +:+ type_name v +:+ "' has no len()") None)
  end.

Fixpoint lookup_item (k : string) (d : list (string * value)) : option value :=
  match d with
  | [] => None
  | (k', v) :: d' => if String.eqb k k' then Some v else lookup_item k d'
  end.

(** [a == b].  A boolean is an integer (True == 1); lists are compared
    element by element, dictionaries item by item whatever the order. *)
Fixpoint py_eq (a b : value) {struct a} : bool :=
  match a, b with
  | VNone, VNone => true
  | VBool x, VBool y => Bool.eqb x y
  | VBool x, VInt z => Z.eqb (Z.b2z x) z
  | VInt z, VBool x => Z.eqb z (Z.b2z x)
  | VInt x, VInt y => Z.eqb x y
  | VStr s, VStr t => String.eqb s t
  | VList l, VList m =>
      (fix eq_list (l m : list value) {struct l} : bool :=
         match l, m with
         | [], [] => true
         | x :: l', y :: m' => py_eq x y && eq_list l' m'
         | _, _ => false
         end) l m
  | VDict d, VDict e =>
      Nat.eqb (length d) (length e) &&
      (fix eq_items (d : list (string * value)) {struct d} : bool :=
         match d with
         | [] => true
         | (k, v) :: d' =>
             match lookup_item k e with
             | Some w => py_eq v w
             | None => false
             end && eq_items d'
         end) d
  | VObj c s, VObj c' s' => String.eqb c c' && String.eqb s s'
  | _, _ => false
  end.

(** [x in l] for a list [l]. *)
Definition py_in (x : value) (l : list value) : bool :=
  existsb (fun y => py_eq y x) l.

(** [bool(v)]: the truth value. *)
Definition truthy (v : value) : bool :=
  match v with
  | VNone => false
  | VBool b => b
  | VInt z => negb (Z.eqb z 0)
  | VStr s => negb (Nat.eqb (String.length s) 0)
  | VList l => negb (Nat.eqb (length l) 0)
  | VDict d => negb (Nat.eqb (length d) 0)
  | VObj _ _ => true
  end.

Fixpoint chars (s : string) : list value :=
  match s with
  | EmptyString => []
  | String c s' => VStr (str1 c) :: chars s'
  end.

(** [list(v)]. *)
Definition list_call (v : value) : result value :=
  match v with
  | VList l => Ok (VList l)
  | VStr s => Ok (VList (chars s))
  | VDict d => Ok (VList (map (fun kv => VStr (fst kv)) d))
  | _ => Raise (Exn TypeError ("'" +:+ type_name v +:+ "' object is not iterable") None)
  end.

(** ** What the module takes from outside

    [LrgaspException] is declared in the package's [__init__], the
    constructors [int] and [dict] belong to the interpreter and
    [validators.email], [validators.url] to the [validators] package.
    None of them is among the sources of this module: the development is
    parametric in the base class of [LrgaspException], in the two
    constructors (the engine never calls them) and in the two library
    predicates, which answer whether the call returned [True]. *)
Class PyEnv := {
  LrgaspException_base : exn_class;
  int_call : value -> result value;
  dict_call : value -> result value;
  validators_email : value -> result bool;
  validators_url_public : value -> result bool
}.

(** ** Type objects *)

(** The type objects a field may declare: the built-in types the module
    names, [bool], and any other class, given by its [__name__] and by what
    calling it on a value does. *)
Inductive pytype :=
| Tstr
| Tint
| Tdict
| Tlist
| Tbool
| Tclass (name : string) (call : value -> result value).

Definition __name__ (t : pytype) : string :=
  match t with
  | Tstr => "str"
  | Tint => "int"
  | Tdict => "dict"
  | Tlist => "list"
  | Tbool => "bool"
  | Tclass name _ => name
  end.

(** [isinstance(v, t)]; [bool] is a subclass of [int]. *)
Definition isinstance (v : value) (t : pytype) : bool :=
  match t, v with
  | Tstr, VStr _ => true
  | Tint, VInt _ => true
  | Tint, VBool _ => true
  | Tdict, VDict _ => true
  | Tlist, VList _ => true
  | Tbool, VBool _ => true
  | Tclass name _, VObj cls _ => String.eqb cls name
  | _, _ => false
  end.

(** [t(v)]. *)
Definition py_call `{PyEnv} (t : pytype) (v : value) : result value :=
  match t with
  | Tstr => Ok (VStr (py_str v))
  | Tint => int_call v
  | Tdict => dict_call v
  | Tlist => list_call v
  | Tbool => Ok (VBool (truthy v))
  | Tclass _ call => call v
  end.

(** ** The module *)

Definition LrgaspException `{PyEnv} : exn_class :=
  Derived "LrgaspException" LrgaspException_base.

Record Field := mkField {
  name : string;
  dtype : pytype;
  element_dtype : option pytype;
  allow_empty : bool;
  optional : bool;
  validator : option (value -> result unit)
}.

Definition is_list (t : pytype) : bool :=
  match t with Tlist => true | _ => false end.

(** [Field.__new__]; the defaults of the keyword arguments are
    [dtype=str], [element_dtype=None], [allow_empty=False],
    [optional=False], [validator=None].  The message is a plain string
    literal, not an f-string. *)
Definition Field_new `{PyEnv} (name : string) (dtype : pytype)
    (element_dtype : option pytype) (allow_empty optional : bool)
    (validator : option (value -> result unit)) : result Field :=
  if is_list dtype && negb (bool_decide (is_Some element_dtype)) then
    Raise (Exn LrgaspException "list field {name} must specify element_dtype" None)
  else
    Ok (mkField name dtype element_dtype allow_empty optional validator).

Definition _should_convert (dtype : pytype) : bool :=
  match dtype with
  | Tstr | Tint | Tdict => false
  | _ => true
  end.

Local Open Scope py_scope.

Definition _convert_type `{PyEnv} (desc : string) (field : Field) (dtype : pytype)
    (val : value) : result value :=
  try_except_ValueError (py_call dtype val)
    (fun ex => Raise (Exn LrgaspException
       (desc +:+ " field " +:+ name field +:+ " is not a valid " +:+ __name__ dtype
             +:+ ": " +:+ py_str val) (Some ex))).

(** Calling [None], which is what an absent [validator] or
    [element_dtype] holds. *)
Definition call_None {A} : result A :=
  Raise (Exn TypeError "'NoneType' object is not callable" None).

Definition _validate_value `{PyEnv} (desc : string) (field : Field) (val : value)
  : result unit :=
  try_except_ValueError
    (match validator field with
     | Some check => check val
     | None => call_None
     end)
    (fun ex => Raise (Exn LrgaspException
       (desc +:+ " field " +:+ name field +:+ " is not valid: " +:+ py_str val) (Some ex))).

Definition _check_scalar `{PyEnv} (desc : string) (field : Field) (val : value)
  : result value :=
  val <- (if _should_convert (dtype field) then
            _convert_type desc field (dtype field) val
          else if negb (isinstance val (dtype field)) then
            Raise (Exn LrgaspException
              (desc +:+ " field " +:+ name field +:+ " must be a " +:+ __name__ (dtype field)) None)
          else Ok val) ;;
  if bool_decide (is_Some (validator field)) then
    _validate_value desc field val ;;; Ok val
  else Ok val.

Definition str_nat (n : nat) : string := str_int (Z.of_nat n).

Definition _check_list_element `{PyEnv} (desc : string) (field : Field) (i : nat)
    (val : value) : result value :=
  val <- match element_dtype field with
         | None => call_None
         | Some edt =>
             if _should_convert edt then _convert_type desc field edt val
             else if negb (isinstance val edt) then
               Raise (Exn LrgaspException
                 (desc +:+ " field " +:+ name field +:+ "[" +:+ str_nat i +:+ "] must be a "
                       +:+ __name__ edt) None)
             else Ok val
         end ;;
  if bool_decide (is_Some (validator field)) then
    _validate_value desc field val ;;; Ok val
  else Ok val.

(** ** The target record and standard output

    The functions below read and assign the attributes of the one record
    [obj] a call works on, and [_check_list] prints.  They are state
    transformers over that record, a finite map from attribute names to
    values, and over the lines written to standard output. *)
Record state := mkState {
  obj : gmap string value;
  stdout : list string
}.

Definition M (A : Type) : Type := state -> result A * state.

Definition ret {A} (a : A) : M A := fun st => (Ok a, st).
Definition raise {A} (e : exn) : M A := fun st => (Raise e, st).
Definition lift {A} (r : result A) : M A := fun st => (r, st).
Definition mbind {A B} (m : M A) (k : A -> M B) : M B :=
  fun st => match m st with
            | (Ok a, st') => k a st'
            | (Raise e, st') => (Raise e, st')
            end.

Declare Scope m_scope.
Delimit Scope m_scope with M.
Notation "x <~ m ;; k" := (mbind m (fun x => k))
  (at level 100, m at next level, right associativity) : m_scope.
Notation "m ;;; k" := (mbind m (fun _ => k))
  (at level 100, right associativity) : m_scope.
Local Open Scope m_scope.

(** [print(a, b)]: the two arguments, separated by a space, as one line. *)
Definition print (a b : string) : M unit :=
  fun st => (Ok tt, mkState (obj st) (stdout st ++ [a +:+ " " +:+ b])).

(** [name in obj], [getattr(obj, name)] and [setattr(obj, name, val)]. *)
Definition contains (name : string) : M bool :=
  fun st => (Ok (bool_decide (is_Some (obj st !! name))), st).

Definition getattr (name : string) : M value :=
  fun st => match obj st !! name with
            | Some v => (Ok v, st)
            | None => (Raise (Exn AttributeError name None), st)
            end.

Definition setattr (name : string) (val : value) : M unit :=
  fun st => (Ok tt, mkState (<[name := val]> (obj st)) (stdout st)).

(** The loop of [_check_list]: [i] is the index of the head of [vals],
    [new_vals] the elements accepted so far. *)
Fixpoint _check_list_loop `{PyEnv} (desc : string) (field : Field) (i : nat)
    (vals new_vals : list value) : M (list value) :=
  match vals with
  | [] => ret new_vals
  | v :: vals' =>
      ival <~ lift (_check_list_element desc field i v) ;;
      if py_in ival new_vals then
        print "@1" (py_str ival) ;;;
        print "@2" (py_str (VList new_vals)) ;;;
        raise (Exn LrgaspException
          (desc +:+ " [" +:+ str_nat i +:+ "] field " +:+ name field +:+ " duplicate value "
                +:+ py_str ival) None)
      else _check_list_loop desc field (S i) vals' (new_vals ++ [ival])
  end.

Definition _check_list `{PyEnv} (desc : string) (field : Field) (vals : value)
  : M value :=
  match vals with
  | VList l =>
      new_vals <~ _check_list_loop desc field 0 l [] ;;
      ret (VList new_vals)
  | _ =>
      raise (Exn LrgaspException
        (desc +:+ " field " +:+ name field +:+ " must be a list") None)
  end.

Definition _check_present_field `{PyEnv} (desc : string) (field : Field) : M unit :=
  val <~ getattr (name field) ;;
  empty <~ (if negb (allow_empty field) then
              n <~ lift (py_len val) ;; ret (Nat.eqb n 0)
            else ret false) ;;
  if (empty : bool) then
    raise (Exn LrgaspException
      (desc +:+ " field " +:+ name field +:+ " must be a non-empty " +:+ __name__ (dtype field))
      None)
  else
    val <~ (if is_list (dtype field) then _check_list desc field val
            else lift (_check_scalar desc field val)) ;;
    setattr (name field) val.

Definition _check_missing_field `{PyEnv} (desc : string) (field : Field) : M unit :=
  if negb (optional field) then
    raise (Exn LrgaspException (desc +:+ " field " +:+ name field +:+ " is required") None)
  else ret tt.

Definition _check_field `{PyEnv} (desc : string) (field : Field) : M unit :=
  present <~ contains (name field) ;;
  if (present : bool) then _check_present_field desc field
  else _check_missing_field desc field.

(** basic check of fields given a definition table *)
Fixpoint check_from_defs `{PyEnv} (desc : string) (fields : list Field) : M unit :=
  match fields with
  | [] => ret tt
  | field :: fields' =>
      _check_field desc field ;;; check_from_defs desc fields'
  end.

(** ** The built-in validators *)

Local Open Scope py_scope.

Definition validate_email `{PyEnv} (val : value) : result unit :=
  is_true <- validators_email val ;;
  if negb is_true then
    Raise (Exn LrgaspException ("invalid email address: " +:+ py_str val) None)
  else Ok tt.

Definition validate_url `{PyEnv} (val : value) : result unit :=
  is_true <- validators_url_public val ;;
  if negb is_true then
    Raise (Exn LrgaspException ("invalid URL: " +:+ py_str val) None)
  else Ok tt.

(** [val.startswith(prefix)]. *)
Definition startswith (val : value) (prefix : string) : result bool :=
  match val with
  | VStr s => Ok (String.prefix prefix s)
  | _ => Raise (Exn AttributeError
           ("'" +:+ type_name val +:+ "' object has no attribute 'startswith'") None)
  end.

Definition validate_http_url `{PyEnv} (val : value) : result unit :=
  validate_url val ;;;
  http <- startswith val "http:" ;;
  https <- (if http then Ok true else startswith val "https:") ;;
  if negb (https : bool) then
    Raise (Exn LrgaspException ("must be an HTTP URL: " +:+ py_str val) None)
  else Ok tt.

(** The character class [[a-fA-F0-9]]. *)
Definition is_hex (c : ascii) : bool :=
  let n := nat_of_ascii c in
  (Nat.leb 48 n && Nat.leb n 57) || (Nat.leb 65 n && Nat.leb n 70)
  || (Nat.leb 97 n && Nat.leb n 102).

(** [[a-fA-F0-9]{n}] at the start of [s]: the rest of the subject after
    [n] characters of the class, if there are that many. *)
Fixpoint match_hex (n : nat) (s : string) : option string :=
  match n with
  | O => Some s
  | S n' =>
      match s with
      | String c s' => if is_hex c then match_hex n' s' else None
      | EmptyString => None
      end
  end.

(** [$] without [re.MULTILINE]: at the end of the subject, or just before
    a newline that is its last character. *)
Definition at_dollar (rest : string) : bool :=
  match rest with
  | EmptyString => true
  | String c EmptyString => Ascii.eqb c newline
  | _ => false
  end.

(** [re.search("^[a-fA-F0-9]{32}$", val)] as a truth value: with [^] the
    match can only start at the first character. *)
Definition re_search_md5 (val : value) : result bool :=
  match val with
  | VStr s =>
      Ok match match_hex 32 s with
         | Some rest => at_dollar rest
         | None => false
         end
  | _ => Raise (Exn TypeError "expected string or bytes-like object" None)
  end.

(** checks MD5 string *)
Definition validate_md5 `{PyEnv} (val : value) : result unit :=
  found <- re_search_md5 val ;;
  if negb found then
    Raise (Exn LrgaspException
      ("MD5 must be a 128-bit hexadecimal number: " +:+ py_str val) None)
  else Ok tt.

Local Open Scope m_scope.

(** * Vocabulary of the statements *)

(** [typed_as t val val']: the type [t] admits [val] as [val'], the
    converted value where [t] converts, [val] itself where [t] is one of
    [str], [int], [dict] and [val] is an instance of it. *)
Definition typed_as `{PyEnv} (t : pytype) (val val' : value) : Prop :=
  if _should_convert t then py_call t val = Ok val'
  else isinstance val t = true /\ val' = val.

(** [converts_to desc field i vals outs]: the element checks of [vals],
    numbered from [i], succeed and give [outs]. *)
Fixpoint converts_to `{PyEnv} (desc : string) (field : Field) (i : nat)
    (vals outs : list value) : Prop :=
  match vals, outs with
  | [], [] => True
  | v :: vals', o :: outs' =>
      _check_list_element desc field i v = Ok o
      /\ converts_to desc field (S i) vals' outs'
  | _, _ => False
  end.

(** No element is equal to one before it. *)
Definition pairwise_distinct (l : list value) : Prop :=
  forall i j x y, i < j -> l !! i = Some x -> l !! j = Some y -> py_eq x y = false.

(** [raised_outside field e]: the exception [e] was not raised by the
    module but by something it calls for [field]: by [len], by the declared
    type or the element type called on a value, by the validator, or by
    calling [None]. *)
Definition raised_outside `{PyEnv} (field : Field) (e : exn) : Prop :=
  (exists val, py_len val = Raise e)
  \/ (exists t val,
        (t = dtype field \/ element_dtype field = Some t) /\ py_call t val = Raise e)
  \/ (exists check val, validator field = Some check /\ check val = Raise e)
  \/ e = Exn TypeError "'NoneType' object is not callable" None.

(** [s in t] for strings. *)
Fixpoint is_substring (s t : string) : bool :=
  String.prefix s t ||
  match t with
  | EmptyString => false
  | String _ t' => is_substring s t'
  end.

(** * Examples *)

(** An environment for the examples: [LrgaspException] derives from
    [Exception], the library predicates accept every value, and [int] and
    [dict] are stand-ins, sound because the engine never calls them
    ([check_from_defs_env] below). *)
Definition example_env : PyEnv := {|
  LrgaspException_base := Exception;
  int_call := fun v => Ok v;
  dict_call := fun v => Ok v;
  validators_email := fun _ => Ok true;
  validators_url_public := fun _ => Ok true
|}.

(** A text field, with the default [allow_empty] and with empty values
    allowed. *)
Definition title_field : Field := mkField "title" Tstr None false false None.
Definition note_field : Field := mkField "note" Tstr None true false None.

(** An optional text field. *)
Definition comment_field : Field := mkField "comment" Tstr None false true None.

(** An integer field with the default [allow_empty]. *)
Definition size_field : Field := mkField "size" Tint None false false None.

(** A flag that is converted to a boolean. *)
Definition flag_field : Field := mkField "flag" Tbool None false false None.

(** A field whose class rejects every value with a ValueError. *)
Definition kind_field : Field :=
  mkField "kind" (Tclass "Kind" (fun _ => Raise (Exn ValueError "unknown" None)))
    None false false None.

(** A text field whose validator raises a ValueError on every value. *)
Definition strict_field : Field :=
  mkField "code" Tstr None false false
    (Some (fun _ => Raise (Exn ValueError "bad code" None))).

(** An integer field that carries the digest validator. *)
Definition count_field : Field :=
  mkField "count" Tint None true false (Some (@validate_md5 example_env)).

(** A validator that raises a ValueError on the string "bad" and accepts
    every other value, and a list of codes that carries it. *)
Definition reject_bad (val : value) : result unit :=
  if py_eq val (VStr "bad") then Raise (Exn ValueError "bad code" None) else Ok tt.

Definition codes_field : Field :=
  mkField "codes" Tlist (Some Tstr) false false (Some reject_bad).

(** A user class whose constructor takes a string and raises a
    TypeError on any other value, and a field of that class. *)
Definition Accession_call (val : value) : result value :=
  match val with
  | VStr s => Ok (VObj "Accession" s)
  | _ => Raise (Exn TypeError "accession must be a string" None)
  end.

Definition accession_field : Field :=
  mkField "accession" (Tclass "Accession" Accession_call) None false false None.

(** A list of tags and a list of flags. *)
Definition tags_field : Field := mkField "tags" Tlist (Some Tstr) false false None.
Definition flags_field : Field := mkField "flags" Tlist (Some Tbool) false false None.

(** * Properties *)

(** ** The error monad and the state of a call *)

Section Engine.
Context `{PyEnv}.

Lemma try_except_ValueError_Raise {A} (e : exn) (handler : exn -> result A) :
  try_except_ValueError (Raise e) handler =
  if is_ValueError (exn_cls e) then handler e else Raise e.
Proof. reflexivity. Qed.

Lemma LrgaspException_not_TypeError_class : LrgaspException <> TypeError.
Proof. discriminate. Qed.

Lemma check_from_defs_cons desc field fields st :
  check_from_defs desc (field :: fields) st =
  match _check_field desc field st with
  | (Ok _, st1) => check_from_defs desc fields st1
  | (Raise e, st1) => (Raise e, st1)
  end.
Proof. reflexivity. Qed.

Lemma check_from_defs_app desc fields1 fields2 st :
  check_from_defs desc (fields1 ++ fields2) st =
  match check_from_defs desc fields1 st with
  | (Ok _, st1) => check_from_defs desc fields2 st1
  | (Raise e, st1) => (Raise e, st1)
  end.
Proof.
  revert st. induction fields1 as [|f fields1 IH]; intros st.
  - reflexivity.
  - rewrite <- app_comm_cons, !check_from_defs_cons.
    destruct (_check_field desc f st) as [[[]|e] st1]; [apply IH | reflexivity].
Qed.

(** The list loop writes to standard output only. *)
Lemma _check_list_loop_obj desc field vals i new_vals st :
  obj (snd (_check_list_loop desc field i vals new_vals st)) = obj st.
Proof.
  revert i new_vals. induction vals as [|v vals IH]; intros i new_vals; simpl.
  - reflexivity.
  - unfold mbind, lift.
    destruct (_check_list_element desc field i v) as [ival|e]; [|reflexivity].
    destruct (py_in ival new_vals); [reflexivity | apply IH].
Qed.

Lemma _check_list_obj desc field vals st :
  obj (snd (_check_list desc field vals st)) = obj st.
Proof.
  destruct vals; try reflexivity. simpl. unfold mbind.
  pose proof (_check_list_loop_obj desc field l 0 [] st) as Hl.
  destruct (_check_list_loop desc field 0 l [] st) as [[out|e] st1]; exact Hl.
Qed.

(** A present field is checked on its current value, and is assigned
    only when the check succeeds. *)
Lemma _check_present_field_obj desc field st :
  match _check_present_field desc field st with
  | (Ok _, st') => exists old new,
      obj st !! name field = Some old /\ obj st' = <[name field := new]> (obj st)
  | (Raise _, st') => obj st' = obj st
  end.
Proof.
  unfold _check_present_field, mbind, getattr.
  destruct (obj st !! name field) as [val|] eqn:Hval; [|reflexivity].
  destruct (negb (allow_empty field)); simpl.
  - unfold mbind, lift. destruct (py_len val) as [n|e]; [|reflexivity].
    unfold ret. destruct (Nat.eqb n 0); [reflexivity|].
    destruct (is_list (dtype field)).
    + pose proof (_check_list_obj desc field val st) as Hl.
      destruct (_check_list desc field val st) as [[v|e] st1]; simpl in *; [|exact Hl].
      exists val, v. rewrite Hl. done.
    + unfold lift. destruct (_check_scalar desc field val); [|reflexivity].
      simpl. eauto.
  - unfold ret. destruct (is_list (dtype field)).
    + pose proof (_check_list_obj desc field val st) as Hl.
      destruct (_check_list desc field val st) as [[v|e] st1]; simpl in *; [|exact Hl].
      exists val, v. rewrite Hl. done.
    + unfold lift. destruct (_check_scalar desc field val); [|reflexivity].
      simpl. eauto.
Qed.

Lemma _check_field_absent desc field st :
  obj st !! name field = None ->
  _check_field desc field st =
  if optional field then (Ok tt, st)
  else (Raise (Exn LrgaspException (desc +:+ " field " +:+ name field +:+ " is required") None), st).
Proof.
  intros Habs. unfold _check_field, mbind, contains. rewrite Habs.
  rewrite bool_decide_eq_false_2 by (intros [? ?]; discriminate).
  unfold _check_missing_field. destruct (optional field); reflexivity.
Qed.

Lemma _check_field_present desc field st val :
  obj st !! name field = Some val ->
  _check_field desc field st = _check_present_field desc field st.
Proof.
  intros Hval. unfold _check_field, mbind, contains. rewrite Hval.
  rewrite bool_decide_eq_true_2 by eauto. reflexivity.
Qed.

(** A failing field leaves the record as it was. *)
Lemma _check_field_Raise_obj desc field st e st' :
  _check_field desc field st = (Raise e, st') -> obj st' = obj st.
Proof.
  destruct (obj st !! name field) as [val|] eqn:Hval.
  - rewrite (_check_field_present _ _ _ _ Hval). intros Hr.
    pose proof (_check_present_field_obj desc field st) as Hp.
    rewrite Hr in Hp. exact Hp.
  - rewrite (_check_field_absent _ _ _ Hval).
    destruct (optional field); intros [= <-]; reflexivity || congruence.
Qed.

(** No check adds an attribute to the record or removes one. *)
Lemma _check_field_absent_iff desc field st n :
  obj (snd (_check_field desc field st)) !! n = None <-> obj st !! n = None.
Proof.
  destruct (obj st !! name field) as [val|] eqn:Hval.
  - rewrite (_check_field_present _ _ _ _ Hval).
    pose proof (_check_present_field_obj desc field st) as Hp.
    destruct (_check_present_field desc field st) as [[[]|e] st']; simpl.
    + destruct Hp as (old & new & Hold & ->).
      destruct (decide (name field = n)) as [<-|Hne].
      * rewrite lookup_insert_eq, Hold. split; discriminate.
      * rewrite lookup_insert_ne by done. reflexivity.
    + rewrite Hp. reflexivity.
  - rewrite (_check_field_absent _ _ _ Hval). destruct (optional field); reflexivity.
Qed.

Lemma check_from_defs_absent_iff desc fields st n :
  obj (snd (check_from_defs desc fields st)) !! n = None <-> obj st !! n = None.
Proof.
  revert st. induction fields as [|f fields IH]; intros st.
  - reflexivity.
  - rewrite check_from_defs_cons.
    pose proof (_check_field_absent_iff desc f st n) as Hf.
    destruct (_check_field desc f st) as [[[]|e] st1]; simpl in Hf.
    + rewrite IH. exact Hf.
    + exact Hf.
Qed.

End Engine.

(** The engine calls neither [int] nor [dict], and no library predicate:
    two environments that agree on the base class of [LrgaspException]
    give the same checks. *)
Lemma _check_scalar_env (E1 E2 : PyEnv) desc field val :
  @LrgaspException_base E1 = @LrgaspException_base E2 ->
  @_check_scalar E1 desc field val = @_check_scalar E2 desc field val.
Proof.
  intros Hbase.
  unfold _check_scalar, _convert_type, _validate_value, LrgaspException.
  rewrite Hbase. destruct (dtype field); reflexivity.
Qed.

Lemma _check_list_element_env (E1 E2 : PyEnv) desc field i val :
  @LrgaspException_base E1 = @LrgaspException_base E2 ->
  @_check_list_element E1 desc field i val = @_check_list_element E2 desc field i val.
Proof.
  intros Hbase.
  unfold _check_list_element, _convert_type, _validate_value, LrgaspException.
  rewrite Hbase. destruct (element_dtype field) as [[]|]; reflexivity.
Qed.

Lemma _check_list_loop_env (E1 E2 : PyEnv) desc field vals i new_vals st :
  @LrgaspException_base E1 = @LrgaspException_base E2 ->
  @_check_list_loop E1 desc field i vals new_vals st
  = @_check_list_loop E2 desc field i vals new_vals st.
Proof.
  intros Hbase. revert i new_vals.
  induction vals as [|v vals IH]; intros i new_vals; simpl; [reflexivity|].
  unfold mbind, lift. rewrite (_check_list_element_env E1 E2) by exact Hbase.
  destruct (@_check_list_element E2 desc field i v) as [ival|e]; [|reflexivity].
  destruct (py_in ival new_vals); [|apply IH].
  unfold LrgaspException. rewrite Hbase. reflexivity.
Qed.

Lemma _check_list_env (E1 E2 : PyEnv) desc field vals st :
  @LrgaspException_base E1 = @LrgaspException_base E2 ->
  @_check_list E1 desc field vals st = @_check_list E2 desc field vals st.
Proof.
  intros Hbase. unfold _check_list, mbind, LrgaspException.
  destruct vals; rewrite ?Hbase; try reflexivity.
  rewrite (_check_list_loop_env E1 E2) by exact Hbase. reflexivity.
Qed.

Lemma _check_present_field_env (E1 E2 : PyEnv) desc field st :
  @LrgaspException_base E1 = @LrgaspException_base E2 ->
  @_check_present_field E1 desc field st = @_check_present_field E2 desc field st.
Proof.
  intros Hbase. unfold _check_present_field, mbind, LrgaspException.
  destruct (getattr (name field) st) as [[val|e] st1]; [|reflexivity].
  rewrite Hbase.
  destruct (negb (allow_empty field)).
  - unfold mbind. destruct (lift (py_len val) st1) as [[n|e] st2]; [|reflexivity].
    destruct (ret (Nat.eqb n 0) st2) as [[[]|e] st3]; try reflexivity.
    destruct (is_list (dtype field)).
    + rewrite (_check_list_env E1 E2) by exact Hbase. reflexivity.
    + unfold lift. rewrite (_check_scalar_env E1 E2) by exact Hbase. reflexivity.
  - destruct (ret false st1) as [[[]|e] st3]; try reflexivity.
    destruct (is_list (dtype field)).
    + rewrite (_check_list_env E1 E2) by exact Hbase. reflexivity.
    + unfold lift. rewrite (_check_scalar_env E1 E2) by exact Hbase. reflexivity.
Qed.

Lemma _check_field_env (E1 E2 : PyEnv) desc field st :
  @LrgaspException_base E1 = @LrgaspException_base E2 ->
  @_check_field E1 desc field st = @_check_field E2 desc field st.
Proof.
  intros Hbase. unfold _check_field, mbind.
  destruct (contains (name field) st) as [[[]|e] st1]; [| |reflexivity].
  - apply _check_present_field_env, Hbase.
  - unfold _check_missing_field, LrgaspException. rewrite Hbase. reflexivity.
Qed.

Lemma check_from_defs_env (E1 E2 : PyEnv) desc fields st :
  @LrgaspException_base E1 = @LrgaspException_base E2 ->
  @check_from_defs E1 desc fields st = @check_from_defs E2 desc fields st.
Proof.
  intros Hbase. revert st. induction fields as [|f fields IH]; intros st.
  - reflexivity.
  - rewrite !check_from_defs_cons, (_check_field_env E1 E2) by exact Hbase.
    destruct (@_check_field E2 desc f st) as [[[]|e] st1]; [apply IH | reflexivity].
Qed.

(** ** Type check, conversion and validator of one value *)

Section Scalar.
Context `{PyEnv}.

Lemma _should_convert_false (t : pytype) :
  _should_convert t = false <-> t = Tstr \/ t = Tint \/ t = Tdict.
Proof.
  destruct t; simpl; split; intros Ht; auto;
    try discriminate; destruct Ht as [Ht|[Ht|Ht]]; discriminate.
Qed.

Lemma _validate_value_Some desc field check val :
  validator field = Some check ->
  _validate_value desc field val =
  match check val with
  | Ok u => Ok u
  | Raise e =>
      if is_ValueError (exn_cls e)
      then Raise (Exn LrgaspException
             (desc +:+ " field " +:+ name field +:+ " is not valid: " +:+ py_str val) (Some e))
      else Raise e
  end.
Proof.
  intros Hv. unfold _validate_value. rewrite Hv.
  destruct (check val); reflexivity.
Qed.

(** Once the type stage has admitted [val] as [val'], the scalar check
    is the validator on [val']. *)
Lemma _check_scalar_typed desc field val val' :
  typed_as (dtype field) val val' ->
  _check_scalar desc field val =
  if bool_decide (is_Some (validator field))
  then bind (_validate_value desc field val') (fun _ => Ok val')
  else Ok val'.
Proof.
  unfold typed_as, _check_scalar, _convert_type.
  destruct (_should_convert (dtype field)).
  - intros ->. reflexivity.
  - intros [-> ->]. reflexivity.
Qed.

Lemma _check_list_element_typed desc field i edt val val' :
  element_dtype field = Some edt ->
  typed_as edt val val' ->
  _check_list_element desc field i val =
  if bool_decide (is_Some (validator field))
  then bind (_validate_value desc field val') (fun _ => Ok val')
  else Ok val'.
Proof.
  unfold typed_as, _check_list_element, _convert_type. intros ->.
  destruct (_should_convert edt).
  - intros ->. reflexivity.
  - intros [-> ->]. reflexivity.
Qed.

Lemma _check_scalar_no_validator desc field val val' :
  validator field = None ->
  typed_as (dtype field) val val' ->
  _check_scalar desc field val = Ok val'.
Proof.
  intros Hv Ht. rewrite (_check_scalar_typed _ _ _ _ Ht), Hv.
  rewrite bool_decide_eq_false_2 by (intros [? ?]; discriminate). reflexivity.
Qed.

Lemma _check_scalar_validated desc field check val val' u :
  validator field = Some check ->
  typed_as (dtype field) val val' ->
  check val' = Ok u ->
  _check_scalar desc field val = Ok val'.
Proof.
  intros Hv Ht Hc. rewrite (_check_scalar_typed _ _ _ _ Ht), Hv.
  rewrite bool_decide_eq_true_2 by eauto.
  rewrite (_validate_value_Some _ _ _ _ Hv), Hc. reflexivity.
Qed.

(** A present scalar field whose emptiness check passes or is switched
    off: [_check_field] is the scalar check followed by the assignment. *)
Lemma _check_field_scalar desc field st val :
  obj st !! name field = Some val ->
  is_list (dtype field) = false ->
  allow_empty field = true \/ (exists n, py_len val = Ok (S n)) ->
  _check_field desc field st =
  match _check_scalar desc field val with
  | Ok val' => (Ok tt, mkState (<[name field := val']> (obj st)) (stdout st))
  | Raise e => (Raise e, st)
  end.
Proof.
  intros Hval Hl Hne. rewrite (_check_field_present _ _ _ _ Hval).
  unfold _check_present_field, mbind, getattr. rewrite Hval, Hl.
  destruct Hne as [Ha|[n Hn]].
  - rewrite Ha. simpl. unfold lift.
    destruct (_check_scalar desc field val); reflexivity.
  - destruct (negb (allow_empty field)); unfold mbind, lift, ret; rewrite ?Hn; simpl;
      destruct (_check_scalar desc field val); reflexivity.
Qed.

End Scalar.

(** C7 (as amended): for a declared type among str, int and dict the
    scalar checker raises LrgaspException "<desc> field <name> must be a
    <type name>" whenever the value is not an instance of the type.  For
    every other declared type it calls the type on the value; when that call
    raises a ValueError (or an instance of a subclass) the checker raises
    LrgaspException "<desc> field <name> is not a valid <type name>:
    <value>" with the ValueError as its cause, and an exception of any other
    class leaves the checker unchanged. *)
Theorem _check_scalar_type_stage `{PyEnv} (desc : string) (field : Field) (val : value) :
  (_should_convert (dtype field) = false <->
     dtype field = Tstr \/ dtype field = Tint \/ dtype field = Tdict)
  /\ (_should_convert (dtype field) = false ->
      isinstance val (dtype field) = false ->
      _check_scalar desc field val =
      Raise (Exn LrgaspException
        (desc +:+ " field " +:+ name field +:+ " must be a " +:+ __name__ (dtype field)) None))
  /\ (forall e,
      _should_convert (dtype field) = true ->
      py_call (dtype field) val = Raise e ->
      _check_scalar desc field val =
      if is_ValueError (exn_cls e)
      then Raise (Exn LrgaspException
             (desc +:+ " field " +:+ name field +:+ " is not a valid "
                   +:+ __name__ (dtype field) +:+ ": " +:+ py_str val) (Some e))
      else Raise e).
Proof.
  split; [apply _should_convert_false|]. split.
  - intros Hc Hi. unfold _check_scalar. rewrite Hc, Hi. reflexivity.
  - intros e Hc Hcall. unfold _check_scalar, _convert_type. rewrite Hc, Hcall.
    rewrite try_except_ValueError_Raise.
    destruct (is_ValueError (exn_cls e)); reflexivity.
Qed.

Lemma _check_scalar_type_stage_witness :
  @_check_scalar example_env "entry" kind_field (VStr "x") =
  Raise (Exn (@LrgaspException example_env) "entry field kind is not a valid Kind: x"
           (Some (Exn ValueError "unknown" None))).
Proof.
  exact (proj2 (proj2 (@_check_scalar_type_stage example_env "entry" kind_field (VStr "x")))
           (Exn ValueError "unknown" None) eq_refl eq_refl).
Defined.

(** C7, the claim as stated fails: the constructor of the class
    Accession raises a TypeError on a list.  For a record that holds a list
    in a field of that class, the scalar checker, and [check_from_defs]
    through it, lets the TypeError through as it is instead of raising the
    "is not a valid Accession" error. *)
Lemma _check_scalar_TypeError_escapes :
  _should_convert (dtype accession_field) = true
  /\ @py_call example_env (dtype accession_field) (VList [VInt 1])
     = Raise (Exn TypeError "accession must be a string" None)
  /\ @_check_scalar example_env "entry" accession_field (VList [VInt 1])
     = Raise (Exn TypeError "accession must be a string" None)
  /\ @check_from_defs example_env "entry" [accession_field]
       (mkState {["accession" := VList [VInt 1]]} [])
     = (Raise (Exn TypeError "accession must be a string" None),
        mkState {["accession" := VList [VInt 1]]} [])
  /\ @_check_scalar example_env "entry" accession_field (VList [VInt 1])
     <> Raise (Exn (@LrgaspException example_env)
                 "entry field accession is not a valid Accession: [1]"
                 (Some (Exn TypeError "accession must be a string" None))).
Proof. repeat split; discriminate. Qed.

(** ** The built-in validators *)

Section Validators.
Context `{PyEnv}.

Lemma append_String (c : ascii) (s t : string) :
  String c s +:+ t = String c (s +:+ t).
Proof. reflexivity. Qed.

Lemma append_nil_r (s : string) : s +:+ "" = s.
Proof.
  induction s as [|c s IH]; [reflexivity|].
  rewrite append_String, IH. reflexivity.
Qed.

Lemma match_hex_Some (n : nat) (s rest : string) :
  match_hex n s = Some rest <->
  exists h, String.length h = n /\ forallb is_hex (list_ascii_of_string h) = true
            /\ s = h +:+ rest.
Proof.
  revert s. induction n as [|n IH]; intros s; simpl.
  - split.
    + intros [= ->]. exists "". auto.
    + intros (h & Hlen & _ & ->). destruct h; [reflexivity | discriminate].
  - destruct s as [|c s].
    + split; [discriminate|]. intros (h & Hlen & _ & Hs).
      destruct h; discriminate.
    + destruct (is_hex c) eqn:Hc.
      * rewrite IH. split.
        -- intros (h & Hlen & Hh & ->). exists (String c h). simpl.
           rewrite Hc, Hlen, Hh. auto.
        -- intros (h & Hlen & Hh & Hs). destruct h as [|c' h]; [discriminate|].
           rewrite append_String in Hs. simpl in *.
           injection Hs as <- ->. injection Hlen as Hlen.
           apply andb_true_iff in Hh as [_ Hh]. eauto.
      * split; [discriminate|]. intros (h & Hlen & Hh & Hs).
        destruct h as [|c' h]; [discriminate|].
        rewrite append_String in Hs. simpl in *.
        injection Hs as <- ->. rewrite Hc in Hh. discriminate.
Qed.

Lemma at_dollar_true (rest : string) :
  at_dollar rest = true <-> rest = "" \/ rest = str1 newline.
Proof.
  destruct rest as [|c [|c' rest]]; simpl.
  - split; auto.
  - rewrite Ascii.eqb_eq. split.
    + intros ->. auto.
    + intros [Hr|Hr]; [discriminate | injection Hr; auto].
  - split; [discriminate | intros [Hr|Hr]; discriminate].
Qed.

(** X14: what [validate_md5] accepts on strings: 32 characters among
    0-9, a-f and A-F, or 32 such characters and one newline after them, and
    nothing else. *)
Lemma validate_md5_accepts (s : string) :
  validate_md5 (VStr s) = Ok tt <->
  exists h, String.length h = 32 /\ forallb is_hex (list_ascii_of_string h) = true
            /\ (s = h \/ s = h +:+ str1 newline).
Proof.
  assert (Hsearch : validate_md5 (VStr s) = Ok tt <->
            exists rest, match_hex 32 s = Some rest /\ at_dollar rest = true).
  { unfold validate_md5, re_search_md5, bind.
    destruct (match_hex 32 s) as [rest|].
    - destruct (at_dollar rest) eqn:Hd; simpl.
      + split; [eauto | reflexivity].
      + split; [discriminate|]. intros (r & [= <-] & Hr). congruence.
    - simpl. split; [discriminate|]. intros (r & Hr & _). discriminate. }
  rewrite Hsearch. split.
  - intros (rest & Hm & Hd).
    apply match_hex_Some in Hm as (h & Hlen & Hh & ->).
    apply at_dollar_true in Hd. exists h. split; [exact Hlen|]. split; [exact Hh|].
    destruct Hd as [-> | ->]; [left; apply append_nil_r | right; reflexivity].
  - intros (h & Hlen & Hh & [-> | ->]).
    + exists "". split; [|reflexivity].
      apply match_hex_Some. exists h. rewrite append_nil_r. auto.
    + exists (str1 newline). split; [|reflexivity].
      apply match_hex_Some. exists h. auto.
Qed.

(** On a string the only failure of [validate_md5] is its own
    LrgaspException, which an [except ValueError] clause catches only if
    LrgaspException derives from ValueError. *)
Lemma validate_md5_Raise (s : string) (e : exn) :
  validate_md5 (VStr s) = Raise e ->
  e = Exn LrgaspException ("MD5 must be a 128-bit hexadecimal number: " +:+ s) None
  /\ is_ValueError (exn_cls e) = is_ValueError LrgaspException_base.
Proof.
  unfold validate_md5, re_search_md5, bind.
  destruct (match match_hex 32 s with Some rest => at_dollar rest | None => false end);
    simpl; [discriminate|].
  intros [= <-]. split; reflexivity.
Qed.

End Validators.

(** C2: the pattern ends in [$], which also matches just before a final
    newline: a digest followed by a newline passes [validate_md5], although
    it is not 32 hexadecimal characters and nothing else.  The digest itself
    passes; 31 characters and a non-hexadecimal string fail. *)
Theorem validate_md5_trailing_newline `{PyEnv} :
  validate_md5 (VStr ("d41d8cd98f00b204e9800998ecf8427e" +:+ str1 newline)) = Ok tt
  /\ validate_md5 (VStr "d41d8cd98f00b204e9800998ecf8427e") = Ok tt
  /\ validate_md5 (VStr "D41D8CD98F00B204E9800998ECF8427E") = Ok tt
  /\ validate_md5 (VStr "d41d8cd98f00b204e9800998ecf8427")
     = Raise (Exn LrgaspException
         "MD5 must be a 128-bit hexadecimal number: d41d8cd98f00b204e9800998ecf8427" None)
  /\ validate_md5 (VStr "g41d8cd98f00b204e9800998ecf8427e")
     = Raise (Exn LrgaspException
         "MD5 must be a 128-bit hexadecimal number: g41d8cd98f00b204e9800998ecf8427e" None).
Proof. repeat split. Qed.

(** C1, the claim as stated fails: on an integer [re.search] raises a
    TypeError inside [validate_md5]; the checks do not turn it into the
    "is not valid" LrgaspException, it reaches the caller as it is. *)
Lemma validator_TypeError_escapes :
  validator count_field = Some (@validate_md5 example_env)
  /\ @validate_md5 example_env (VInt 5)
     = Raise (Exn TypeError "expected string or bytes-like object" None)
  /\ @_check_scalar example_env "entry" count_field (VInt 5)
     = Raise (Exn TypeError "expected string or bytes-like object" None)
  /\ fst (@check_from_defs example_env "entry" [count_field]
            (mkState {["count" := VInt 5]} []))
     = Raise (Exn TypeError "expected string or bytes-like object" None)
  /\ @_check_scalar example_env "entry" count_field (VInt 5)
     <> Raise (Exn (@LrgaspException example_env) "entry field count is not valid: 5"
                 (Some (Exn TypeError "expected string or bytes-like object" None))).
Proof. repeat split; discriminate. Qed.

(** The failure of a built-in validator on a string is an
    LrgaspException of its own: unless LrgaspException derives from
    ValueError it is not caught either, and the caller sees the validator's
    message. *)
Lemma validate_md5_failure_escapes `{PyEnv} desc field val s e :
  is_ValueError LrgaspException_base = false ->
  validator field = Some validate_md5 ->
  typed_as (dtype field) val (VStr s) ->
  validate_md5 (VStr s) = Raise e ->
  _check_scalar desc field val =
  Raise (Exn LrgaspException ("MD5 must be a 128-bit hexadecimal number: " +:+ s) None).
Proof.
  intros Hbase Hv Ht Hr. destruct (validate_md5_Raise _ _ Hr) as [-> _].
  rewrite (_check_scalar_typed _ _ _ _ Ht), Hv.
  rewrite bool_decide_eq_true_2 by eauto.
  rewrite (_validate_value_Some _ _ _ _ Hv), Hr. simpl. rewrite Hbase. reflexivity.
Qed.

(** ** The emptiness check *)

(** C9: the length of the current value is taken before the type is
    looked at.  For a present field with [allow_empty] false whose value
    has no length, [check_from_defs] ends with the TypeError of [len], which
    is not an LrgaspException; an integer is such a value, also for an
    integer field, whose type it satisfies. *)
Theorem emptiness_check_TypeError `{PyEnv} (desc : string) (field : Field)
    (fields : list Field) (st : state) (val : value) :
  obj st !! name field = Some val ->
  allow_empty field = false ->
  (forall e, py_len val = Raise e ->
     check_from_defs desc (field :: fields) st = (Raise e, st)
     /\ exn_cls e = TypeError /\ exn_cls e <> LrgaspException)
  /\ (forall z, val = VInt z ->
     isinstance val Tint = true
     /\ py_len val = Raise (Exn TypeError "object of type 'int' has no len()" None)).
Proof.
  intros Hval Ha. split.
  - intros e He. split.
    + rewrite check_from_defs_cons, (_check_field_present _ _ _ _ Hval).
      unfold _check_present_field, mbind, getattr. rewrite Hval, Ha. simpl.
      unfold mbind, lift. rewrite He. reflexivity.
    + destruct val; try discriminate; injection He as <-;
        split; reflexivity || discriminate.
  - intros z ->. split; reflexivity.
Qed.

Lemma emptiness_check_TypeError_witness :
  @check_from_defs example_env "entry" [size_field] (mkState {["size" := VInt 7]} [])
  = (Raise (Exn TypeError "object of type 'int' has no len()" None),
     mkState {["size" := VInt 7]} []).
Proof.
  exact (proj1 (proj1 (@emptiness_check_TypeError example_env "entry" size_field []
                         (mkState {["size" := VInt 7]} []) (VInt 7) eq_refl eq_refl)
                  (Exn TypeError "object of type 'int' has no len()" None) eq_refl)).
Defined.

Lemma state_eta (st : state) : mkState (obj st) (stdout st) = st.
Proof. destruct st; reflexivity. Qed.

(** C8 (as amended): for a present field with [allow_empty] false whose
    current value has length zero, [_check_field], and so [check_from_defs],
    raises LrgaspException "<desc> field <name> must be a non-empty <type
    name>" whatever the declared type, element type and validator are, and
    the record is left as it was.  With [allow_empty] true the emptiness
    check is skipped and the empty value goes on to the type check: when it
    is an empty list of a list field, or an instance of a declared type
    among str, int and dict that the validator, if there is one, accepts,
    the check succeeds and the record is unchanged. *)
Theorem empty_value_check `{PyEnv} (desc : string) (field : Field) (fields : list Field)
    (st : state) (val : value) :
  obj st !! name field = Some val ->
  py_len val = Ok 0 ->
  (allow_empty field = false ->
     _check_field desc field st =
       (Raise (Exn LrgaspException
          (desc +:+ " field " +:+ name field +:+ " must be a non-empty "
                +:+ __name__ (dtype field)) None), st)
     /\ check_from_defs desc (field :: fields) st =
       (Raise (Exn LrgaspException
          (desc +:+ " field " +:+ name field +:+ " must be a non-empty "
                +:+ __name__ (dtype field)) None), st))
  /\ (allow_empty field = true ->
      (is_list (dtype field) = true /\ val = VList [])
      \/ (_should_convert (dtype field) = false /\ isinstance val (dtype field) = true
          /\ match validator field with
             | Some check => exists u, check val = Ok u
             | None => True
             end) ->
      _check_field desc field st = (Ok tt, st)).
Proof.
  intros Hval Hlen. split.
  - intros Ha.
    assert (Hf : _check_field desc field st =
       (Raise (Exn LrgaspException
          (desc +:+ " field " +:+ name field +:+ " must be a non-empty "
                +:+ __name__ (dtype field)) None), st)).
    { rewrite (_check_field_present _ _ _ _ Hval).
      unfold _check_present_field, mbind, getattr. rewrite Hval, Ha. simpl.
      unfold mbind, lift. rewrite Hlen. reflexivity. }
    split; [exact Hf|]. rewrite check_from_defs_cons, Hf. reflexivity.
  - intros Ha [[Hl ->] | (Hc & Hi & Hcheck)].
    + rewrite (_check_field_present _ _ _ _ Hval).
      unfold _check_present_field, mbind, getattr. rewrite Hval, Ha, Hl. simpl.
      unfold setattr. rewrite (insert_id _ _ _ Hval), state_eta. reflexivity.
    + assert (Hl : is_list (dtype field) = false).
      { apply _should_convert_false in Hc as [-> | [-> | ->]]; reflexivity. }
      rewrite (_check_field_scalar _ _ _ _ Hval Hl (or_introl Ha)).
      assert (Ht : typed_as (dtype field) val val).
      { unfold typed_as. rewrite Hc. auto. }
      assert (Hs : _check_scalar desc field val = Ok val).
      { destruct (validator field) as [check|] eqn:Hv.
        - destruct Hcheck as [u Hu]. exact (_check_scalar_validated _ _ _ _ _ _ Hv Ht Hu).
        - exact (_check_scalar_no_validator _ _ _ _ Hv Ht). }
      rewrite Hs, (insert_id _ _ _ Hval), state_eta. reflexivity.
Qed.

Lemma empty_value_check_witness :
  @check_from_defs example_env "entry" [title_field] (mkState {["title" := VStr ""]} [])
  = (Raise (Exn (@LrgaspException example_env)
              "entry field title must be a non-empty str" None),
     mkState {["title" := VStr ""]} [])
  /\ @_check_field example_env "entry" note_field (mkState {["note" := VStr ""]} [])
     = (Ok tt, mkState {["note" := VStr ""]} []).
Proof.
  split.
  - exact (proj2 (proj1 (@empty_value_check example_env "entry" title_field []
                           (mkState {["title" := VStr ""]} []) (VStr "") eq_refl eq_refl)
                    eq_refl)).
  - refine (proj2 (@empty_value_check example_env "entry" note_field []
                     (mkState {["note" := VStr ""]} []) (VStr "") eq_refl eq_refl)
              eq_refl _).
    right. repeat split.
Defined.

(** C8, the claim as stated fails for its second half: a text field
    that allows empty values and holds an empty list passes the emptiness
    check and then fails the type check. *)
Lemma allow_empty_does_not_succeed :
  obj (mkState {["note" := VList []]} []) !! name note_field = Some (VList [])
  /\ py_len (VList []) = Ok 0
  /\ allow_empty note_field = true
  /\ @check_from_defs example_env "entry" [note_field] (mkState {["note" := VList []]} [])
     = (Raise (Exn (@LrgaspException example_env) "entry field note must be a str" None),
        mkState {["note" := VList []]} []).
Proof. repeat split. Qed.

(** ** Constructing a field descriptor *)

(** C3, the claim as stated fails: the error of the construction and
    the error for a missing required field are instances of one class. *)
Lemma construction_error_same_class :
  @Field_new example_env "tags" Tlist None false false None
    = Raise (Exn (@LrgaspException example_env)
               "list field {name} must specify element_dtype" None)
  /\ fst (@check_from_defs example_env "entry" [title_field] (mkState ∅ []))
    = Raise (Exn (@LrgaspException example_env) "entry field title is required" None)
  /\ exn_cls (Exn (@LrgaspException example_env)
                "list field {name} must specify element_dtype" None)
     = exn_cls (Exn (@LrgaspException example_env) "entry field title is required" None).
Proof. repeat split. Qed.

Lemma append_length (a s : string) :
  String.length (a +:+ s) = String.length a + String.length s.
Proof.
  induction a as [|c a IH]; [reflexivity|].
  rewrite append_String. simpl. rewrite IH. reflexivity.
Qed.

Lemma append_cancel_r (a b s : string) : a +:+ s = b +:+ s -> a = b.
Proof.
  intros Heq.
  assert (Hlen : String.length a = String.length b).
  { apply (f_equal String.length) in Heq. rewrite !append_length in Heq. lia. }
  revert b Heq Hlen. induction a as [|x a IH]; intros [|y b] Heq Hlen; try discriminate.
  - reflexivity.
  - rewrite !append_String in Heq. injection Heq as -> Heq. injection Hlen as Hlen.
    f_equal. exact (IH b Heq Hlen).
Qed.

(** C10: whatever the field name, the error of [Field.__new__] for a
    list field without element type carries the literal message "list field
    {name} must specify element_dtype": the placeholder is kept as it is and
    the name of the field is not put in its place, so that the message is
    not the text with the name filled in (unless the field is itself called
    "{name}"). *)
Theorem Field_new_message_literal `{PyEnv} (nm : string) (empty_ok opt : bool)
    (check : option (value -> result unit)) :
  exists e,
    Field_new nm Tlist None empty_ok opt check = Raise e
    /\ exn_msg e = "list field {name} must specify element_dtype"
    /\ is_substring "{name}" (exn_msg e) = true
    /\ (nm <> "{name}" ->
        exn_msg e <> "list field " +:+ nm +:+ " must specify element_dtype").
Proof.
  exists (Exn LrgaspException "list field {name} must specify element_dtype" None).
  split; [reflexivity|]. split; [reflexivity|]. split; [reflexivity|].
  intros Hnm Heq. simpl in Heq. apply Hnm.
  change ("list field " +:+ "{name}" +:+ " must specify element_dtype"
          = "list field " +:+ nm +:+ " must specify element_dtype") in Heq.
  repeat (rewrite !append_String in Heq; injection Heq as Heq).
  change ("{name}" +:+ " must specify element_dtype"
          = nm +:+ " must specify element_dtype") in Heq.
  symmetry. exact (append_cancel_r _ _ _ Heq).
Qed.

Lemma Field_new_message_literal_witness :
  exists e,
    @Field_new example_env "tags" Tlist None false false None = Raise e
    /\ exn_msg e = "list field {name} must specify element_dtype"
    /\ is_substring "{name}" (exn_msg e) = true
    /\ exn_msg e <> "list field " +:+ "tags" +:+ " must specify element_dtype".
Proof.
  destruct (@Field_new_message_literal example_env "tags" false false None)
    as (e & Hnew & Hmsg & Hsub & Hne).
  exists e. repeat split; try assumption. apply Hne. discriminate.
Defined.

(** ** The pass over the schema *)

(** C5: [check_from_defs] stops at the first field that fails.  When
    the fields before a field pass and that field raises, the call raises
    the same exception whatever fields follow; the record is then the one
    the earlier fields left, with their converted values written back, and
    no attribute has been assigned since. *)
Theorem check_from_defs_fail_fast `{PyEnv} (desc : string) (before : list Field)
    (field : Field) (after : list Field) (st st1 st2 : state) (e : exn) :
  check_from_defs desc before st = (Ok tt, st1) ->
  _check_field desc field st1 = (Raise e, st2) ->
  check_from_defs desc (before ++ field :: after) st = (Raise e, st2)
  /\ obj st2 = obj st1.
Proof.
  intros Hb Hf. split.
  - rewrite check_from_defs_app, Hb, check_from_defs_cons, Hf. reflexivity.
  - exact (_check_field_Raise_obj _ _ _ _ _ Hf).
Qed.

(** The flag is converted and written back, the title that follows is
    missing, the size after it is never looked at: the call fails and the
    record has changed. *)
Lemma check_from_defs_fail_fast_witness :
  @check_from_defs example_env "entry" ([flag_field] ++ title_field :: [size_field])
    (mkState {["flag" := VStr "yes"]} [])
  = (Raise (Exn (@LrgaspException example_env) "entry field title is required" None),
     mkState {["flag" := VBool true]} [])
  /\ obj (mkState {["flag" := VBool true]} []) = obj (mkState {["flag" := VBool true]} []).
Proof.
  refine (@check_from_defs_fail_fast example_env "entry" [flag_field] title_field
            [size_field] (mkState {["flag" := VStr "yes"]} [])
            (mkState {["flag" := VBool true]} []) (mkState {["flag" := VBool true]} [])
            _ _ _).
  - vm_compute. reflexivity.
  - vm_compute. reflexivity.
Defined.

(** C6: for a field whose name is absent from the record, once the
    fields before it have passed: a field that is not optional makes
    [check_from_defs] raise LrgaspException "<desc> field <name> is
    required"; an optional field is a step that changes nothing, the call
    goes on with the fields after it.  Either way the name is still absent
    from the record when the call ends. *)
Theorem check_from_defs_absent_field `{PyEnv} (desc : string) (before : list Field)
    (field : Field) (after : list Field) (st st1 : state) :
  obj st !! name field = None ->
  check_from_defs desc before st = (Ok tt, st1) ->
  (optional field = false ->
     check_from_defs desc (before ++ field :: after) st =
       (Raise (Exn LrgaspException (desc +:+ " field " +:+ name field +:+ " is required") None),
        st1))
  /\ (optional field = true ->
      _check_field desc field st1 = (Ok tt, st1)
      /\ check_from_defs desc (before ++ field :: after) st = check_from_defs desc after st1)
  /\ obj (snd (check_from_defs desc (before ++ field :: after) st)) !! name field = None.
Proof.
  intros Habs Hb.
  assert (Habs1 : obj st1 !! name field = None).
  { pose proof (check_from_defs_absent_iff desc before st (name field)) as Hi.
    rewrite Hb in Hi. apply Hi, Habs. }
  split; [|split].
  - intros Hopt.
    rewrite check_from_defs_app, Hb, check_from_defs_cons.
    rewrite (_check_field_absent _ _ _ Habs1), Hopt. reflexivity.
  - intros Hopt. split.
    + rewrite (_check_field_absent _ _ _ Habs1), Hopt. reflexivity.
    + rewrite check_from_defs_app, Hb, check_from_defs_cons.
      rewrite (_check_field_absent _ _ _ Habs1), Hopt. reflexivity.
  - apply check_from_defs_absent_iff, Habs.
Qed.

Lemma check_from_defs_absent_field_witness :
  @check_from_defs example_env "entry" ([flag_field] ++ title_field :: [size_field])
    (mkState {["flag" := VStr "yes"]} [])
  = (Raise (Exn (@LrgaspException example_env) "entry field title is required" None),
     mkState {["flag" := VBool true]} [])
  /\ @check_from_defs example_env "entry" ([flag_field] ++ comment_field :: [])
       (mkState {["flag" := VStr "yes"]} [])
     = (Ok tt, mkState {["flag" := VBool true]} []).
Proof.
  split.
  - refine (proj1 (@check_from_defs_absent_field example_env "entry" [flag_field] title_field
                     [size_field] (mkState {["flag" := VStr "yes"]} [])
                     (mkState {["flag" := VBool true]} []) _ _) _).
    + reflexivity.
    + vm_compute. reflexivity.
    + reflexivity.
  - refine (proj2 (proj1 (proj2 (@check_from_defs_absent_field example_env "entry"
                     [flag_field] comment_field [] (mkState {["flag" := VStr "yes"]} [])
                     (mkState {["flag" := VBool true]} []) _ _)) _)).
    + reflexivity.
    + vm_compute. reflexivity.
    + reflexivity.
Defined.

(** ** The list checker *)

Section ListChecker.
Context `{PyEnv}.

Lemma py_in_true (x : value) (l : list value) :
  py_in x l = true <-> exists y, y ∈ l /\ py_eq y x = true.
Proof.
  unfold py_in. rewrite existsb_exists.
  split; intros (y & Hy & Heq); exists y; split; try assumption;
    apply list_elem_of_In; assumption.
Qed.

Lemma py_in_false (x : value) (l : list value) :
  py_in x l = false <-> forall y, y ∈ l -> py_eq y x = false.
Proof.
  split.
  - intros Hin y Hy. destruct (py_eq y x) eqn:Heq; [|reflexivity].
    assert (py_in x l = true) by (apply py_in_true; eauto). congruence.
  - intros Hall. destruct (py_in x l) eqn:Hin; [|reflexivity].
    apply py_in_true in Hin as (y & Hy & Heq). rewrite (Hall y Hy) in Heq. discriminate.
Qed.

Lemma pairwise_distinct_new (outs : list value) :
  pairwise_distinct outs ->
  forall k o, outs !! k = Some o -> py_in o ([] ++ take k outs) = false.
Proof.
  intros Hd k o Hk. apply py_in_false. intros y Hy. simpl in Hy.
  apply elem_of_take in Hy as (i & Hi & Hlt). exact (Hd i k y o Hlt Hi Hk).
Qed.

(** The loop on elements that all pass and are new: it returns them
    after the elements accepted before, and prints nothing. *)
Lemma _check_list_loop_Ok desc field vals : forall outs i new_vals st,
  converts_to desc field i vals outs ->
  (forall k o, outs !! k = Some o -> py_in o (new_vals ++ take k outs) = false) ->
  _check_list_loop desc field i vals new_vals st = (Ok (new_vals ++ outs), st).
Proof.
  induction vals as [|v vals IH]; intros [|o outs] i new_vals st Hc Hnew;
    try contradiction.
  - simpl. rewrite app_nil_r. reflexivity.
  - destruct Hc as [Ho Hc]. simpl. unfold mbind, lift. rewrite Ho.
    pose proof (Hnew 0 o eq_refl) as H0. simpl in H0. rewrite app_nil_r in H0.
    rewrite H0. rewrite (IH outs (S i) (new_vals ++ [o]) st Hc).
    + rewrite <- app_assoc. reflexivity.
    + intros k o' Hk. rewrite <- app_assoc. exact (Hnew (S k) o' Hk).
Qed.

(** The loop on elements of which the first ones pass and are new and
    the next one is equal to an element accepted before it: the two
    diagnostic lines are printed and the duplicate is reported with its
    index. *)
Lemma _check_list_loop_duplicate desc field vals1 : forall outs1 v vals2 o i new_vals st,
  converts_to desc field i vals1 outs1 ->
  (forall k o', outs1 !! k = Some o' -> py_in o' (new_vals ++ take k outs1) = false) ->
  _check_list_element desc field (i + length vals1) v = Ok o ->
  py_in o (new_vals ++ outs1) = true ->
  _check_list_loop desc field i (vals1 ++ v :: vals2) new_vals st =
  (Raise (Exn LrgaspException
     (desc +:+ " [" +:+ str_nat (i + length vals1) +:+ "] field " +:+ name field
           +:+ " duplicate value " +:+ py_str o) None),
   mkState (obj st)
     (stdout st ++ ["@1 " +:+ py_str o; "@2 " +:+ py_str (VList (new_vals ++ outs1))])).
Proof.
  induction vals1 as [|v1 vals1 IH]; intros [|o1 outs1] v vals2 o i new_vals st Hc Hnew Ho Hin;
    try contradiction.
  - simpl in *. rewrite Nat.add_0_r in *. rewrite app_nil_r in *.
    unfold mbind, lift. rewrite Ho, Hin. unfold print, raise. simpl.
    rewrite <- app_assoc. reflexivity.
  - destruct Hc as [Ho1 Hc]. simpl. unfold mbind at 1, lift. rewrite Ho1.
    pose proof (Hnew 0 o1 eq_refl) as H0. simpl in H0. rewrite app_nil_r in H0.
    rewrite H0.
    rewrite (IH outs1 v vals2 o (S i) (new_vals ++ [o1]) st Hc).
    + rewrite <- !app_assoc. simpl. rewrite Nat.add_succ_r. reflexivity.
    + intros k o' Hk. rewrite <- app_assoc. exact (Hnew (S k) o' Hk).
    + simpl in Ho. rewrite Nat.add_succ_r in Ho. exact Ho.
    + rewrite <- app_assoc. exact Hin.
Qed.

(** The loop stops at the first element whose check fails. *)
Lemma _check_list_loop_element_fails desc field vals1 : forall outs1 v vals2 e i new_vals st,
  converts_to desc field i vals1 outs1 ->
  (forall k o', outs1 !! k = Some o' -> py_in o' (new_vals ++ take k outs1) = false) ->
  _check_list_element desc field (i + length vals1) v = Raise e ->
  _check_list_loop desc field i (vals1 ++ v :: vals2) new_vals st = (Raise e, st).
Proof.
  induction vals1 as [|v1 vals1 IH]; intros [|o1 outs1] v vals2 e i new_vals st Hc Hnew He;
    try contradiction.
  - simpl in *. rewrite Nat.add_0_r in *. unfold mbind, lift. rewrite He. reflexivity.
  - destruct Hc as [Ho1 Hc]. simpl. unfold mbind at 1, lift. rewrite Ho1.
    pose proof (Hnew 0 o1 eq_refl) as H0. simpl in H0. rewrite app_nil_r in H0.
    rewrite H0. apply (IH outs1); try assumption.
    + intros k o' Hk. rewrite <- app_assoc. exact (Hnew (S k) o' Hk).
    + simpl in He. rewrite Nat.add_succ_r in He. exact He.
Qed.

End ListChecker.

(** A present list field whose emptiness check passes or is switched
    off: [_check_field] is the list check followed by the assignment. *)
Lemma _check_field_list `{PyEnv} desc field st val :
  obj st !! name field = Some val ->
  is_list (dtype field) = true ->
  allow_empty field = true \/ (exists n, py_len val = Ok (S n)) ->
  _check_field desc field st =
  match _check_list desc field val st with
  | (Ok val', st1) => (Ok tt, mkState (<[name field := val']> (obj st1)) (stdout st1))
  | (Raise e, st1) => (Raise e, st1)
  end.
Proof.
  intros Hval Hl Hne. rewrite (_check_field_present _ _ _ _ Hval).
  unfold _check_present_field, mbind, getattr. rewrite Hval, Hl.
  destruct Hne as [Ha|[n Hn]].
  - rewrite Ha. simpl.
    destruct (_check_list desc field val st) as [[v|e] st1]; reflexivity.
  - destruct (negb (allow_empty field)); unfold mbind, lift, ret; rewrite ?Hn; simpl;
      destruct (_check_list desc field val st) as [[v|e] st1]; reflexivity.
Qed.

(** C1 (as amended): for a field with a validator attached, when the
    validator raises a ValueError (or an instance of a subclass) on the
    possibly converted value, the scalar check and the list-element check
    raise LrgaspException "<desc> field <name> is not valid: <value>" with
    the validator's exception as its cause, and so does [check_from_defs],
    for a present scalar field and for a present list field at the first
    element the validator rejects; an exception of any other class passes
    through unchanged, without the field name or the description. *)
Theorem validator_failure_reraised `{PyEnv} (desc : string) (field : Field)
    (check : value -> result unit) (val val' : value) (e : exn) :
  validator field = Some check ->
  check val' = Raise e ->
  let reraised :=
    if is_ValueError (exn_cls e)
    then Exn LrgaspException
           (desc +:+ " field " +:+ name field +:+ " is not valid: " +:+ py_str val') (Some e)
    else e in
  (typed_as (dtype field) val val' -> _check_scalar desc field val = Raise reraised)
  /\ (forall i edt, element_dtype field = Some edt -> typed_as edt val val' ->
      _check_list_element desc field i val = Raise reraised)
  /\ (forall fields st,
      obj st !! name field = Some val ->
      is_list (dtype field) = false ->
      allow_empty field = true \/ (exists n, py_len val = Ok (S n)) ->
      typed_as (dtype field) val val' ->
      check_from_defs desc (field :: fields) st = (Raise reraised, st))
  /\ (forall fields st edt vals1 vals2 outs1,
      obj st !! name field = Some (VList (vals1 ++ val :: vals2)) ->
      is_list (dtype field) = true ->
      element_dtype field = Some edt ->
      converts_to desc field 0 vals1 outs1 ->
      pairwise_distinct outs1 ->
      typed_as edt val val' ->
      check_from_defs desc (field :: fields) st = (Raise reraised, st)).
Proof.
  intros Hv Hc reraised.
  assert (Hval : bind (_validate_value desc field val') (fun _ => Ok val') = Raise reraised).
  { rewrite (_validate_value_Some _ _ _ _ Hv), Hc. subst reraised.
    destruct (is_ValueError (exn_cls e)); reflexivity. }
  assert (Hs : typed_as (dtype field) val val' -> _check_scalar desc field val = Raise reraised).
  { intros Ht. rewrite (_check_scalar_typed _ _ _ _ Ht), Hv.
    rewrite bool_decide_eq_true_2 by eauto. exact Hval. }
  assert (Hel : forall i edt, element_dtype field = Some edt -> typed_as edt val val' ->
            _check_list_element desc field i val = Raise reraised).
  { intros i edt He Ht. rewrite (_check_list_element_typed _ _ _ _ _ _ He Ht), Hv.
    rewrite bool_decide_eq_true_2 by eauto. exact Hval. }
  split; [exact Hs|]. split; [exact Hel|]. split.
  - intros fields st Hpres Hl Hne Ht.
    rewrite check_from_defs_cons, (_check_field_scalar _ _ _ _ Hpres Hl Hne), (Hs Ht).
    reflexivity.
  - intros fields st edt vals1 vals2 outs1 Hpres Hl He Hconv Hd Ht.
    assert (Hne : allow_empty field = true
                  \/ exists n, py_len (VList (vals1 ++ val :: vals2)) = Ok (S n)).
    { right. exists (length vals1 + length vals2). simpl.
      rewrite length_app. simpl. f_equal. lia. }
    rewrite check_from_defs_cons, (_check_field_list _ _ _ _ Hpres Hl Hne).
    unfold _check_list, mbind.
    rewrite (_check_list_loop_element_fails desc field vals1 outs1 val vals2 reraised
               0 [] st Hconv (pairwise_distinct_new outs1 Hd) (Hel _ edt He Ht)).
    reflexivity.
Qed.

Lemma validator_failure_reraised_witness :
  @_check_scalar example_env "entry" strict_field (VStr "x")
  = Raise (Exn (@LrgaspException example_env) "entry field code is not valid: x"
             (Some (Exn ValueError "bad code" None)))
  /\ @check_from_defs example_env "entry" [codes_field]
       (mkState {["codes" := VList ([VStr "ok"] ++ VStr "bad" :: [VStr "ok"])]} [])
     = (Raise (Exn (@LrgaspException example_env) "entry field codes is not valid: bad"
                 (Some (Exn ValueError "bad code" None))),
        mkState {["codes" := VList ([VStr "ok"] ++ VStr "bad" :: [VStr "ok"])]} []).
Proof.
  split.
  - refine (proj1 (@validator_failure_reraised example_env "entry" strict_field
                     (fun _ => Raise (Exn ValueError "bad code" None))
                     (VStr "x") (VStr "x") (Exn ValueError "bad code" None) eq_refl eq_refl) _).
    split; reflexivity.
  - refine (proj2 (proj2 (proj2 (@validator_failure_reraised example_env "entry" codes_field
                     reject_bad (VStr "bad") (VStr "bad") (Exn ValueError "bad code" None)
                     eq_refl eq_refl)))
              [] (mkState {["codes" := VList ([VStr "ok"] ++ VStr "bad" :: [VStr "ok"])]} [])
              Tstr [VStr "ok"] [VStr "ok"] [VStr "ok"] eq_refl eq_refl eq_refl _ _ _).
    + repeat split.
    + intros [|i] [|j] x y Hlt Hi Hj; simpl in *; try lia; discriminate.
    + split; reflexivity.
Defined.

(** ** Where the exceptions of a call come from *)

Section Origin.
Context `{PyEnv}.

Lemma try_except_ValueError_origin {A} (r : result A) (msg : string) (e : exn) :
  try_except_ValueError r (fun ex => Raise (Exn LrgaspException msg (Some ex))) = Raise e ->
  (exists ex, e = Exn LrgaspException msg (Some ex)) \/ r = Raise e.
Proof.
  destruct r as [a|ex]; simpl; [discriminate|].
  destruct (is_ValueError (exn_cls ex)); intros [= <-]; eauto.
Qed.

Lemma prefix_description (desc rest : string) :
  String.prefix (desc +:+ " ") (desc +:+ String " " rest) = true.
Proof.
  induction desc as [|c desc IH].
  - destruct rest; reflexivity.
  - rewrite !append_String. simpl.
    destruct (ascii_dec c c) as [_|Hne]; [exact IH | congruence].
Qed.

Lemma _convert_type_origin desc field t val e :
  _convert_type desc field t val = Raise e ->
  (exn_cls e = LrgaspException /\ String.prefix (desc +:+ " ") (exn_msg e) = true)
  \/ py_call t val = Raise e.
Proof.
  intros Hr. apply try_except_ValueError_origin in Hr as [[ex ->] | Hr]; [left | auto].
  split; [reflexivity | apply prefix_description].
Qed.

Lemma _validate_value_origin desc field val e :
  _validate_value desc field val = Raise e ->
  (exn_cls e = LrgaspException /\ String.prefix (desc +:+ " ") (exn_msg e) = true)
  \/ raised_outside field e.
Proof.
  intros Hr. apply try_except_ValueError_origin in Hr as [[ex ->] | Hr].
  - left. split; [reflexivity | apply prefix_description].
  - right. unfold raised_outside. destruct (validator field) as [check|].
    + right. right. left. eauto.
    + right. right. right. injection Hr as <-. reflexivity.
Qed.

Lemma _check_scalar_origin desc field val e :
  _check_scalar desc field val = Raise e ->
  (exn_cls e = LrgaspException /\ String.prefix (desc +:+ " ") (exn_msg e) = true)
  \/ raised_outside field e.
Proof.
  unfold _check_scalar.
  destruct (_should_convert (dtype field)).
  - destruct (_convert_type desc field (dtype field) val) as [v|e0] eqn:Hc; simpl.
    + destruct (bool_decide (is_Some (validator field))); [|discriminate].
      destruct (_validate_value desc field v) as [u|e1] eqn:Hv; simpl; [discriminate|].
      intros [= <-]. exact (_validate_value_origin _ _ _ _ Hv).
    + intros [= <-]. apply _convert_type_origin in Hc as [Hown | Hcall]; [auto|].
      right. right. left. eauto.
  - destruct (negb (isinstance val (dtype field))); simpl.
    + intros [= <-]. left. split; [reflexivity | apply prefix_description].
    + destruct (bool_decide (is_Some (validator field))); [|discriminate].
      destruct (_validate_value desc field val) as [u|e1] eqn:Hv; simpl; [discriminate|].
      intros [= <-]. exact (_validate_value_origin _ _ _ _ Hv).
Qed.

Lemma _check_list_element_origin desc field i val e :
  _check_list_element desc field i val = Raise e ->
  (exn_cls e = LrgaspException /\ String.prefix (desc +:+ " ") (exn_msg e) = true)
  \/ raised_outside field e.
Proof.
  unfold _check_list_element.
  destruct (element_dtype field) as [edt|] eqn:He; simpl.
  - destruct (_should_convert edt).
    + destruct (_convert_type desc field edt val) as [v|e0] eqn:Hc; simpl.
      * destruct (bool_decide (is_Some (validator field))); [|discriminate].
        destruct (_validate_value desc field v) as [u|e1] eqn:Hv; simpl; [discriminate|].
        intros [= <-]. exact (_validate_value_origin _ _ _ _ Hv).
      * intros [= <-]. apply _convert_type_origin in Hc as [Hown | Hcall]; [auto|].
        right. right. left. eauto.
    + destruct (negb (isinstance val edt)); simpl.
      * intros [= <-]. left. split; [reflexivity | apply prefix_description].
      * destruct (bool_decide (is_Some (validator field))); [|discriminate].
        destruct (_validate_value desc field val) as [u|e1] eqn:Hv; simpl; [discriminate|].
        intros [= <-]. exact (_validate_value_origin _ _ _ _ Hv).
  - intros [= <-]. right. right. right. right. reflexivity.
Qed.

Lemma _check_list_loop_origin desc field vals : forall i new_vals st e st',
  _check_list_loop desc field i vals new_vals st = (Raise e, st') ->
  (exn_cls e = LrgaspException /\ String.prefix (desc +:+ " ") (exn_msg e) = true)
  \/ raised_outside field e.
Proof.
  induction vals as [|v vals IH]; intros i new_vals st e st'; simpl; [discriminate|].
  unfold mbind at 1, lift.
  destruct (_check_list_element desc field i v) as [ival|e0] eqn:Hv.
  - destruct (py_in ival new_vals).
    + unfold mbind, print, raise. simpl. intros [= <- _].
      left. split; [reflexivity | apply prefix_description].
    + apply IH.
  - intros [= <- _]. exact (_check_list_element_origin _ _ _ _ _ Hv).
Qed.

Lemma _check_field_origin desc field st e st' :
  _check_field desc field st = (Raise e, st') ->
  (exn_cls e = LrgaspException /\ String.prefix (desc +:+ " ") (exn_msg e) = true)
  \/ raised_outside field e.
Proof.
  destruct (obj st !! name field) as [val|] eqn:Hval.
  - rewrite (_check_field_present _ _ _ _ Hval).
    unfold _check_present_field, mbind, getattr. rewrite Hval.
    set (m := if is_list (dtype field) then _check_list desc field val
              else lift (_check_scalar desc field val)).
    assert (Hm : forall st0 e0 st1, m st0 = (Raise e0, st1) ->
              (exn_cls e0 = LrgaspException
               /\ String.prefix (desc +:+ " ") (exn_msg e0) = true)
              \/ raised_outside field e0).
    { subst m. intros st0 e0 st1. destruct (is_list (dtype field)).
      - destruct val; simpl;
          try (intros [= <- _]; left; split; [reflexivity | apply prefix_description]).
        unfold mbind.
        destruct (_check_list_loop desc field 0 l [] st0) as [[out|e1] st2] eqn:Hloop;
          [discriminate|].
        intros [= <- _]. exact (_check_list_loop_origin _ _ _ _ _ _ _ _ Hloop).
      - unfold lift. intros [= Hs _]. exact (_check_scalar_origin _ _ _ _ Hs). }
    clearbody m.
    assert (Hset :
      (let (r, st1) := m st in
       match r with
       | Ok a => setattr (name field) a st1
       | Raise e0 => (Raise e0, st1)
       end) = (Raise e, st') ->
      (exn_cls e = LrgaspException /\ String.prefix (desc +:+ " ") (exn_msg e) = true)
      \/ raised_outside field e).
    { destruct (m st) as [[v|e0] st1] eqn:Hmst; [discriminate|].
      intros [= <- _]. exact (Hm _ _ _ Hmst). }
    destruct (negb (allow_empty field)).
    + unfold mbind, lift. destruct (py_len val) as [n|e0] eqn:Hlen.
      * unfold ret. destruct (Nat.eqb n 0).
        -- simpl. intros [= <- _]. left. split; [reflexivity | apply prefix_description].
        -- exact Hset.
      * intros [= <- _]. right. left. eauto.
    + exact Hset.
  - rewrite (_check_field_absent _ _ _ Hval). destruct (optional field); [discriminate|].
    intros [= <- _]. left. split; [reflexivity | apply prefix_description].
Qed.

Lemma check_from_defs_origin desc fields : forall st e st',
  check_from_defs desc fields st = (Raise e, st') ->
  (exn_cls e = LrgaspException /\ String.prefix (desc +:+ " ") (exn_msg e) = true)
  \/ exists field, field ∈ fields /\ raised_outside field e.
Proof.
  induction fields as [|f fields IH]; intros st e st'.
  - discriminate.
  - rewrite check_from_defs_cons.
    destruct (_check_field desc f st) as [[[]|e0] st1] eqn:Hf.
    + intros Hr. apply IH in Hr as [Hown | (field & Hin & Hout)]; [auto|].
      right. exists field. split; [right; exact Hin | exact Hout].
    + intros [= <- _]. apply _check_field_origin in Hf as [Hown | Hout]; [auto|].
      right. exists f. split; [left | exact Hout].
Qed.

End Origin.

(** C3 (as amended): [Field.__new__] with declared type [list] and no
    element type raises an LrgaspException and returns no descriptor, so no
    record is ever checked against such a field; every other combination of
    arguments gives the descriptor.  LrgaspException is also the class of
    every error the module itself raises while a schema is applied: an
    exception that leaves [check_from_defs] is an LrgaspException whose
    message starts with the description, or it was raised by [len], by a
    declared type or element type called on a value, or by a validator,
    and let through.  The error of the construction and the errors for the
    data of a record are told apart by their messages only. *)
Theorem Field_new_list_needs_element_dtype `{PyEnv} (nm : string) (dt : pytype)
    (edt : option pytype) (empty_ok opt : bool) (check : option (value -> result unit)) :
  Field_new nm dt edt empty_ok opt check =
    (if is_list dt && negb (bool_decide (is_Some edt))
     then Raise (Exn LrgaspException "list field {name} must specify element_dtype" None)
     else Ok (mkField nm dt edt empty_ok opt check))
  /\ Field_new nm Tlist None empty_ok opt check =
       Raise (Exn LrgaspException "list field {name} must specify element_dtype" None)
  /\ (forall desc fields st e st',
      check_from_defs desc fields st = (Raise e, st') ->
      (exn_cls e = LrgaspException /\ String.prefix (desc +:+ " ") (exn_msg e) = true)
      \/ exists field, field ∈ fields /\ raised_outside field e).
Proof.
  split; [reflexivity|]. split; [reflexivity|].
  intros desc fields st e st'. apply check_from_defs_origin.
Qed.

Lemma Field_new_list_needs_element_dtype_witness :
  (exn_cls (Exn (@LrgaspException example_env) "entry field title is required" None)
     = @LrgaspException example_env
   /\ String.prefix ("entry" +:+ " ")
        (exn_msg (Exn (@LrgaspException example_env) "entry field title is required" None))
      = true)
  \/ exists field, field ∈ [flag_field; title_field]
                   /\ @raised_outside example_env field
                        (Exn (@LrgaspException example_env)
                           "entry field title is required" None).
Proof.
  exact (proj2 (proj2 (@Field_new_list_needs_element_dtype example_env
                         "tags" Tlist None false false None))
           "entry" [flag_field; title_field] (mkState {["flag" := VStr "yes"]} [])
           (Exn (@LrgaspException example_env) "entry field title is required" None)
           (mkState {["flag" := VBool true]} []) eq_refl).
Defined.

(** C4: the list checker compares every converted element with the
    converted elements accepted before it.  When the elements pass their
    checks and no converted element is equal to an earlier one, the checker
    returns the converted elements in the order of the input.  When the
    first elements do so and the next one converts to a value equal to an
    accepted one, the checker raises LrgaspException "<desc> [<index>] field
    <name> duplicate value <value>" with the index of that element.  For a
    list of strings, ["a", "a"] fails at index 1 and ["a", "b"] is returned
    as it is; with elements converted to booleans, "x" and "y" are
    duplicates although the inputs differ. *)
Theorem _check_list_duplicates `{PyEnv} (desc : string) (field : Field) (st : state) :
  (forall vals outs,
     converts_to desc field 0 vals outs ->
     pairwise_distinct outs ->
     _check_list desc field (VList vals) st = (Ok (VList outs), st))
  /\ (forall vals1 v vals2 outs1 o,
     converts_to desc field 0 vals1 outs1 ->
     pairwise_distinct outs1 ->
     _check_list_element desc field (length vals1) v = Ok o ->
     (exists y, y ∈ outs1 /\ py_eq y o = true) ->
     fst (_check_list desc field (VList (vals1 ++ v :: vals2)) st) =
       Raise (Exn LrgaspException
         (desc +:+ " [" +:+ str_nat (length vals1) +:+ "] field " +:+ name field
               +:+ " duplicate value " +:+ py_str o) None))
  /\ (element_dtype field = Some Tstr -> validator field = None ->
      fst (_check_list desc field (VList [VStr "a"; VStr "a"]) st) =
        Raise (Exn LrgaspException
          (desc +:+ " [1] field " +:+ name field +:+ " duplicate value a") None)
      /\ _check_list desc field (VList [VStr "a"; VStr "b"]) st
         = (Ok (VList [VStr "a"; VStr "b"]), st))
  /\ (element_dtype field = Some Tbool -> validator field = None ->
      fst (_check_list desc field (VList [VStr "x"; VStr "y"]) st) =
        Raise (Exn LrgaspException
          (desc +:+ " [1] field " +:+ name field +:+ " duplicate value True") None)).
Proof.
  split; [|split; [|split]].
  - intros vals outs Hc Hd. unfold _check_list, mbind.
    rewrite (_check_list_loop_Ok desc field vals outs 0 [] st Hc
               (pairwise_distinct_new outs Hd)).
    reflexivity.
  - intros vals1 v vals2 outs1 o Hc Hd Ho Hdup. unfold _check_list, mbind.
    rewrite (_check_list_loop_duplicate desc field vals1 outs1 v vals2 o 0 [] st Hc
               (pairwise_distinct_new outs1 Hd) Ho (proj2 (py_in_true o outs1) Hdup)).
    reflexivity.
  - intros He Hv. split.
    + unfold _check_list, mbind. simpl. unfold mbind, lift, _check_list_element.
      rewrite He, Hv. simpl. reflexivity.
    + unfold _check_list, mbind. simpl. unfold mbind, lift, _check_list_element.
      rewrite He, Hv. simpl. reflexivity.
  - intros He Hv.
    unfold _check_list, mbind. simpl. unfold mbind, lift, _check_list_element.
    rewrite He, Hv. simpl. reflexivity.
Qed.

Lemma _check_list_duplicates_witness :
  @_check_list example_env "entry" tags_field (VList [VStr "a"; VStr "b"; VStr "c"])
    (mkState ∅ [])
  = (Ok (VList [VStr "a"; VStr "b"; VStr "c"]), mkState ∅ [])
  /\ fst (@_check_list example_env "entry" flags_field
            (VList ([VStr "x"; VStr ""] ++ VInt 2 :: [VInt 0])) (mkState ∅ []))
     = Raise (Exn (@LrgaspException example_env)
                "entry [2] field flags duplicate value True" None).
Proof.
  split.
  - refine (proj1 (@_check_list_duplicates example_env "entry" tags_field (mkState ∅ []))
              [VStr "a"; VStr "b"; VStr "c"] [VStr "a"; VStr "b"; VStr "c"] _ _).
    + repeat split.
    + intros [|[|[|i]]] [|[|[|j]]] x y Hlt Hi Hj; simpl in *;
        try lia; try discriminate;
        injection Hi as <-; injection Hj as <-; reflexivity.
  - refine (proj1 (proj2 (@_check_list_duplicates example_env "entry" flags_field
                            (mkState ∅ [])))
              [VStr "x"; VStr ""] (VInt 2) [VInt 0] [VBool true; VBool false] (VBool true)
              _ _ _ _).
    + repeat split.
    + intros [|[|i]] [|[|j]] x y Hlt Hi Hj; simpl in *;
        try lia; try discriminate;
        injection Hi as <-; injection Hj as <-; reflexivity.
    + reflexivity.
    + exists (VBool true). split; [left | reflexivity].
Defined.

(** * Further properties of the module *)

(** ** What a call does to the record *)

Section Record.
Context `{PyEnv}.

(** A field assigns at most the attribute it is named after. *)
Lemma _check_field_other desc field st n :
  name field <> n ->
  obj (snd (_check_field desc field st)) !! n = obj st !! n.
Proof.
  intros Hne. destruct (obj st !! name field) as [val|] eqn:Hval.
  - rewrite (_check_field_present _ _ _ _ Hval).
    pose proof (_check_present_field_obj desc field st) as Hp.
    destruct (_check_present_field desc field st) as [[[]|e] st']; simpl.
    + destruct Hp as (old & new & _ & ->). apply lookup_insert_ne, Hne.
    + rewrite Hp. reflexivity.
  - rewrite (_check_field_absent _ _ _ Hval). destruct (optional field); reflexivity.
Qed.

End Record.

(** X1: [check_from_defs] neither adds an attribute to the record nor
    removes one, whether it returns or raises: the record has the same
    attribute names after the call as before. *)
Theorem check_from_defs_dom `{PyEnv} (desc : string) (fields : list Field) (st : state) :
  dom (obj (snd (check_from_defs desc fields st))) = dom (obj st).
Proof.
  apply set_eq. intros n. rewrite !elem_of_dom, <- !not_eq_None_Some.
  rewrite check_from_defs_absent_iff. reflexivity.
Qed.

(** X2: an attribute that no field of the schema names keeps its value
    through [check_from_defs], whether the call returns or raises. *)
Theorem check_from_defs_frame `{PyEnv} (desc : string) (fields : list Field) (st : state)
    (n : string) :
  n ∉ map name fields ->
  obj (snd (check_from_defs desc fields st)) !! n = obj st !! n.
Proof.
  revert st. induction fields as [|f fields IH]; intros st Hn.
  - reflexivity.
  - simpl in Hn. apply not_elem_of_cons in Hn as [Hne Hn].
    rewrite check_from_defs_cons.
    pose proof (_check_field_other desc f st n (not_eq_sym Hne)) as Hf.
    destruct (_check_field desc f st) as [[[]|e] st1]; simpl in Hf.
    + rewrite (IH st1 Hn). exact Hf.
    + exact Hf.
Qed.

Lemma check_from_defs_frame_witness :
  obj (snd (@check_from_defs example_env "entry" [flag_field; title_field]
              (mkState (<["flag" := VStr "yes"]> {["id" := VInt 7]}) [])))
    !! "id"
  = obj (mkState (<["flag" := VStr "yes"]> {["id" := VInt 7]}) []) !! "id".
Proof.
  refine (@check_from_defs_frame example_env "entry" [flag_field; title_field]
            (mkState (<["flag" := VStr "yes"]> {["id" := VInt 7]}) []) "id" _).
  intros Hin. apply list_elem_of_In in Hin. simpl in Hin.
  destruct Hin as [Hin|[Hin|[]]]; discriminate.
Defined.

(** X3: checking a record against two schemas one after the other is
    checking it against their concatenation: the second schema sees the
    record the first one left, and is not run when the first one raises. *)
Theorem check_from_defs_concat `{PyEnv} (desc : string) (fields1 fields2 : list Field)
    (st : state) :
  check_from_defs desc (fields1 ++ fields2) st
  = mbind (check_from_defs desc fields1) (fun _ => check_from_defs desc fields2) st.
Proof.
  unfold mbind. rewrite check_from_defs_app.
  destruct (check_from_defs desc fields1 st) as [[[]|e] st1]; reflexivity.
Qed.

(** X4: a descriptor that [Field.__new__] returns holds the arguments
    as they were given and, when its declared type is [list], has an
    element type: the list checker never finds [None] in its place. *)
Theorem Field_new_Ok `{PyEnv} (nm : string) (dt : pytype) (edt : option pytype)
    (empty_ok opt : bool) (check : option (value -> result unit)) (field : Field) :
  Field_new nm dt edt empty_ok opt check = Ok field ->
  field = mkField nm dt edt empty_ok opt check
  /\ (is_list (dtype field) = true -> exists t, element_dtype field = Some t).
Proof.
  unfold Field_new.
  destruct (is_list dt) eqn:Hl; destruct edt as [t|]; simpl;
    try discriminate; intros [= <-]; (split; [reflexivity|]); simpl;
    intros Hl'; eauto; congruence.
Qed.

Lemma Field_new_Ok_witness :
  tags_field = mkField "tags" Tlist (Some Tstr) false false None
  /\ (is_list (dtype tags_field) = true -> exists t, element_dtype tags_field = Some t).
Proof.
  exact (@Field_new_Ok example_env "tags" Tlist (Some Tstr) false false None tags_field
           eq_refl).
Defined.

(** ** More on the list checker *)

Section ListResult.
Context `{PyEnv}.

Lemma converts_to_length desc field vals : forall i outs,
  converts_to desc field i vals outs -> length outs = length vals.
Proof.
  induction vals as [|v vals IH]; intros i [|o outs] Hc; try contradiction.
  - reflexivity.
  - destruct Hc as [_ Hc]. simpl. f_equal. exact (IH _ _ Hc).
Qed.

(** What a run of the loop that returns tells about its input. *)
Lemma _check_list_loop_Ok_inv desc field vals : forall i new_vals st out st',
  _check_list_loop desc field i vals new_vals st = (Ok out, st') ->
  exists outs,
    out = new_vals ++ outs
    /\ converts_to desc field i vals outs
    /\ (forall k o, outs !! k = Some o -> py_in o (new_vals ++ take k outs) = false)
    /\ st' = st.
Proof.
  induction vals as [|v vals IH]; intros i new_vals st out st'; simpl.
  - intros [= <- <-]. exists []. rewrite app_nil_r. repeat split.
    intros k o Hk. destruct k; discriminate.
  - unfold mbind, lift.
    destruct (_check_list_element desc field i v) as [ival|e] eqn:Hv; [|discriminate].
    destruct (py_in ival new_vals) eqn:Hin; [discriminate|].
    intros Hloop. apply IH in Hloop as (outs & -> & Hc & Hnew & ->).
    exists (ival :: outs). rewrite <- app_assoc. repeat split; try assumption.
    intros [|k] o Hk; simpl in *.
    + injection Hk as <-. rewrite app_nil_r. exact Hin.
    + specialize (Hnew k o Hk). rewrite <- app_assoc in Hnew. exact Hnew.
Qed.



End ListResult.


(** X6: when the list checker returns, its result is a list with one
    element for each element of the input, in the order of the input, each
    the outcome of the element check at its index; no element of the result
    is equal to an earlier one, and nothing was printed. *)
Theorem _check_list_Ok_inv `{PyEnv} (desc : string) (field : Field) (vals out : value)
    (st st' : state) :
  _check_list desc field vals st = (Ok out, st') ->
  exists l outs,
    vals = VList l /\ out = VList outs
    /\ converts_to desc field 0 l outs
    /\ length outs = length l
    /\ pairwise_distinct outs
    /\ st' = st.
Proof.
  destruct vals; try discriminate. unfold _check_list, mbind.
  destruct (_check_list_loop desc field 0 l [] st) as [[o|e] st1] eqn:Hloop;
    [|discriminate].
  intros [= <- <-].
  apply _check_list_loop_Ok_inv in Hloop as (outs & -> & Hc & Hnew & ->).
  exists l, outs. repeat split; try assumption.
  - exact (converts_to_length _ _ _ _ _ Hc).
  - intros i j x y Hlt Hi Hj. specialize (Hnew j y Hj). simpl in Hnew.
    rewrite py_in_false in Hnew. apply Hnew, elem_of_take. eauto.
Qed.

Lemma _check_list_Ok_inv_witness :
  exists l outs,
    VList [VStr "a"; VStr "b"] = VList l /\ VList [VStr "a"; VStr "b"] = VList outs
    /\ @converts_to example_env "entry" tags_field 0 l outs
    /\ length outs = length l
    /\ pairwise_distinct outs
    /\ mkState ∅ [] = mkState ∅ [].
Proof.
  exact (@_check_list_Ok_inv example_env "entry" tags_field (VList [VStr "a"; VStr "b"])
           (VList [VStr "a"; VStr "b"]) (mkState ∅ []) (mkState ∅ []) eq_refl).
Defined.

(** X7: the list checker stops at the first element that is not an
    instance of an element type among str, int and dict: when the elements
    before it pass and are pairwise distinct, it raises LrgaspException
    "<desc> field <name>[<index>] must be a <type name>" with the index of
    that element, prints nothing and looks at no later element. *)
Theorem _check_list_element_type_error `{PyEnv} (desc : string) (field : Field)
    (edt : pytype) (vals1 : list value) (v : value) (vals2 outs1 : list value)
    (st : state) :
  element_dtype field = Some edt ->
  _should_convert edt = false ->
  converts_to desc field 0 vals1 outs1 ->
  pairwise_distinct outs1 ->
  isinstance v edt = false ->
  _check_list desc field (VList (vals1 ++ v :: vals2)) st =
  (Raise (Exn LrgaspException
     (desc +:+ " field " +:+ name field +:+ "[" +:+ str_nat (length vals1)
           +:+ "] must be a " +:+ __name__ edt) None), st).
Proof.
  intros He Hc Hconv Hd Hi. unfold _check_list, mbind.
  rewrite (_check_list_loop_element_fails desc field vals1 outs1 v vals2
             (Exn LrgaspException
                (desc +:+ " field " +:+ name field +:+ "[" +:+ str_nat (length vals1)
                      +:+ "] must be a " +:+ __name__ edt) None)
             0 [] st Hconv (pairwise_distinct_new outs1 Hd)).
  - reflexivity.
  - unfold _check_list_element. rewrite He, Hc, Hi. reflexivity.
Qed.

Lemma _check_list_element_type_error_witness :
  @_check_list example_env "entry" tags_field (VList ([VStr "a"] ++ VInt 3 :: [VStr "a"]))
    (mkState ∅ [])
  = (Raise (Exn (@LrgaspException example_env) "entry field tags[1] must be a str" None),
     mkState ∅ []).
Proof.
  refine (@_check_list_element_type_error example_env "entry" tags_field Tstr
            [VStr "a"] (VInt 3) [VStr "a"] [VStr "a"] (mkState ∅ []) eq_refl eq_refl _ _
            eq_refl).
  - repeat split.
  - intros [|i] [|j] x y Hlt Hi Hj; simpl in *; try lia; discriminate.
Defined.

(** ** The exceptions that reach the caller *)

Section Escaping.
Context `{PyEnv}.

Lemma prefix_append (a b c : string) :
  String.prefix (a +:+ b) (a +:+ c) = String.prefix b c.
Proof.
  induction a as [|x a IH]; [reflexivity|].
  rewrite !append_String. simpl.
  destruct (ascii_dec x x) as [_|Hne]; [exact IH | congruence].
Qed.

Lemma prefix_desc (desc rest : string) :
  String.prefix (desc +:+ " ") (desc +:+ String " " rest) = true.
Proof. rewrite prefix_append. destruct rest; reflexivity. Qed.

Lemma try_except_ValueError_escaping {A} (r : result A) (msg : string) (e : exn) :
  try_except_ValueError r (fun ex => Raise (Exn LrgaspException msg (Some ex))) = Raise e ->
  is_ValueError (exn_cls e) = true ->
  e = Exn LrgaspException msg (exn_cause e).
Proof.
  destruct r as [a|ex]; simpl; [discriminate|].
  destruct (is_ValueError (exn_cls ex)) eqn:Hve.
  - intros [= <-] _. reflexivity.
  - intros [= <-] Hve'. congruence.
Qed.

Lemma _validate_value_escaping desc field val e :
  _validate_value desc field val = Raise e ->
  is_ValueError (exn_cls e) = true ->
  exn_cls e = LrgaspException /\ String.prefix (desc +:+ " ") (exn_msg e) = true.
Proof.
  intros Hr Hve. rewrite (try_except_ValueError_escaping _ _ _ Hr Hve).
  split; [reflexivity | apply prefix_desc].
Qed.

Lemma _convert_type_escaping desc field t val e :
  _convert_type desc field t val = Raise e ->
  is_ValueError (exn_cls e) = true ->
  exn_cls e = LrgaspException /\ String.prefix (desc +:+ " ") (exn_msg e) = true.
Proof.
  intros Hr Hve. rewrite (try_except_ValueError_escaping _ _ _ Hr Hve).
  split; [reflexivity | apply prefix_desc].
Qed.

Lemma _check_scalar_escaping desc field val e :
  _check_scalar desc field val = Raise e ->
  is_ValueError (exn_cls e) = true ->
  exn_cls e = LrgaspException /\ String.prefix (desc +:+ " ") (exn_msg e) = true.
Proof.
  unfold _check_scalar.
  destruct (_should_convert (dtype field)).
  - destruct (_convert_type desc field (dtype field) val) as [v|e0] eqn:Hc; simpl.
    + destruct (bool_decide (is_Some (validator field))); [|discriminate].
      destruct (_validate_value desc field v) as [u|e1] eqn:Hv; simpl; [discriminate|].
      intros [= <-]. exact (_validate_value_escaping _ _ _ _ Hv).
    + intros [= <-]. exact (_convert_type_escaping _ _ _ _ _ Hc).
  - destruct (negb (isinstance val (dtype field))); simpl.
    + intros [= <-] _. split; [reflexivity | apply prefix_desc].
    + destruct (bool_decide (is_Some (validator field))); [|discriminate].
      destruct (_validate_value desc field val) as [u|e1] eqn:Hv; simpl; [discriminate|].
      intros [= <-]. exact (_validate_value_escaping _ _ _ _ Hv).
Qed.

Lemma _check_list_element_escaping desc field i val e :
  _check_list_element desc field i val = Raise e ->
  is_ValueError (exn_cls e) = true ->
  exn_cls e = LrgaspException /\ String.prefix (desc +:+ " ") (exn_msg e) = true.
Proof.
  unfold _check_list_element.
  destruct (element_dtype field) as [edt|]; simpl.
  - destruct (_should_convert edt).
    + destruct (_convert_type desc field edt val) as [v|e0] eqn:Hc; simpl.
      * destruct (bool_decide (is_Some (validator field))); [|discriminate].
        destruct (_validate_value desc field v) as [u|e1] eqn:Hv; simpl; [discriminate|].
        intros [= <-]. exact (_validate_value_escaping _ _ _ _ Hv).
      * intros [= <-]. exact (_convert_type_escaping _ _ _ _ _ Hc).
    + destruct (negb (isinstance val edt)); simpl.
      * intros [= <-] _. split; [reflexivity | apply prefix_desc].
      * destruct (bool_decide (is_Some (validator field))); [|discriminate].
        destruct (_validate_value desc field val) as [u|e1] eqn:Hv; simpl; [discriminate|].
        intros [= <-]. exact (_validate_value_escaping _ _ _ _ Hv).
  - intros [= <-]. discriminate.
Qed.

Lemma _check_list_loop_escaping desc field vals : forall i new_vals st e st',
  _check_list_loop desc field i vals new_vals st = (Raise e, st') ->
  is_ValueError (exn_cls e) = true ->
  exn_cls e = LrgaspException /\ String.prefix (desc +:+ " ") (exn_msg e) = true.
Proof.
  induction vals as [|v vals IH]; intros i new_vals st e st'; simpl; [discriminate|].
  unfold mbind at 1, lift.
  destruct (_check_list_element desc field i v) as [ival|e0] eqn:Hv.
  - destruct (py_in ival new_vals).
    + unfold mbind, print, raise. simpl. intros [= <- _] _.
      split; [reflexivity | apply prefix_desc].
    + apply IH.
  - intros [= <- _]. exact (_check_list_element_escaping _ _ _ _ _ Hv).
Qed.

Lemma _check_field_escaping desc field st e st' :
  _check_field desc field st = (Raise e, st') ->
  is_ValueError (exn_cls e) = true ->
  exn_cls e = LrgaspException /\ String.prefix (desc +:+ " ") (exn_msg e) = true.
Proof.
  destruct (obj st !! name field) as [val|] eqn:Hval.
  - rewrite (_check_field_present _ _ _ _ Hval).
    unfold _check_present_field, mbind, getattr. rewrite Hval.
    set (m := if is_list (dtype field) then _check_list desc field val
              else lift (_check_scalar desc field val)).
    assert (Hm : forall st0 e0 st1, m st0 = (Raise e0, st1) ->
              is_ValueError (exn_cls e0) = true ->
              exn_cls e0 = LrgaspException
              /\ String.prefix (desc +:+ " ") (exn_msg e0) = true).
    { subst m. intros st0 e0 st1. destruct (is_list (dtype field)).
      - destruct val; simpl; try (intros [= <- _] _; split; [reflexivity | apply prefix_desc]).
        unfold mbind.
        destruct (_check_list_loop desc field 0 l [] st0) as [[out|e1] st2] eqn:Hloop;
          [discriminate|].
        intros [= <- _]. exact (_check_list_loop_escaping _ _ _ _ _ _ _ _ Hloop).
      - unfold lift. intros [= Hs _]. exact (_check_scalar_escaping _ _ _ _ Hs). }
    clearbody m.
    assert (Hset :
      (let (r, st1) := m st in
       match r with
       | Ok a => setattr (name field) a st1
       | Raise e0 => (Raise e0, st1)
       end) = (Raise e, st') ->
      is_ValueError (exn_cls e) = true ->
      exn_cls e = LrgaspException /\ String.prefix (desc +:+ " ") (exn_msg e) = true).
    { destruct (m st) as [[v|e0] st1] eqn:Hmst; [discriminate|].
      intros [= <- _]. exact (Hm _ _ _ Hmst). }
    destruct (negb (allow_empty field)).
    + unfold mbind, lift. destruct (py_len val) as [n|e0] eqn:Hlen.
      * unfold ret. destruct (Nat.eqb n 0).
        -- simpl. intros [= <- _] _. split; [reflexivity | apply prefix_desc].
        -- exact Hset.
      * intros [= <- _]. destruct val; try discriminate; injection Hlen as <-; discriminate.
    + exact Hset.
  - rewrite (_check_field_absent _ _ _ Hval). destruct (optional field); [discriminate|].
    intros [= <- _] _. split; [reflexivity | apply prefix_desc].
Qed.

End Escaping.

Lemma check_from_defs_escaping `{PyEnv} desc fields : forall st st' e,
  check_from_defs desc fields st = (Raise e, st') ->
  is_ValueError (exn_cls e) = true ->
  exn_cls e = LrgaspException /\ String.prefix (desc +:+ " ") (exn_msg e) = true.
Proof.
  induction fields as [|f fields IH]; intros st st' e.
  - discriminate.
  - rewrite check_from_defs_cons.
    destruct (_check_field desc f st) as [[[]|e0] st1] eqn:Hf.
    + apply IH.
    + intros [= <- _]. exact (_check_field_escaping _ _ _ _ _ Hf).
Qed.

(** X8: no ValueError of a constructor or of a validator reaches the
    caller of [check_from_defs] as it is.  An exception that leaves the call
    is either an LrgaspException whose message starts with the description,
    or it is not an instance of ValueError. *)
Theorem check_from_defs_ValueError `{PyEnv} (desc : string) (fields : list Field)
    (st st' : state) (e : exn) :
  check_from_defs desc fields st = (Raise e, st') ->
  (exn_cls e = LrgaspException /\ String.prefix (desc +:+ " ") (exn_msg e) = true)
  \/ is_ValueError (exn_cls e) = false.
Proof.
  intros Hr. destruct (is_ValueError (exn_cls e)) eqn:Hve; [left | right; reflexivity].
  exact (check_from_defs_escaping _ _ _ _ _ Hr Hve).
Qed.

Lemma check_from_defs_ValueError_witness :
  (exn_cls (Exn TypeError "object of type 'int' has no len()" None)
     = @LrgaspException example_env
   /\ String.prefix ("entry" +:+ " ")
        (exn_msg (Exn TypeError "object of type 'int' has no len()" None)) = true)
  \/ is_ValueError (exn_cls (Exn TypeError "object of type 'int' has no len()" None)) = false.
Proof.
  exact (@check_from_defs_ValueError example_env "entry" [size_field]
           (mkState {["size" := VInt 7]} []) (mkState {["size" := VInt 7]} [])
           (Exn TypeError "object of type 'int' has no len()" None) eq_refl).
Defined.

(** ** What a successful check stores *)

Section Stored.
Context `{PyEnv}.

Lemma _check_scalar_no_conversion desc field val val' :
  _should_convert (dtype field) = false ->
  _check_scalar desc field val = Ok val' ->
  val' = val.
Proof.
  unfold _check_scalar. intros ->.
  destruct (negb (isinstance val (dtype field))); simpl; [discriminate|].
  destruct (bool_decide (is_Some (validator field))); [|congruence].
  destruct (_validate_value desc field val); simpl; [congruence | discriminate].
Qed.

Lemma _check_field_no_conversion desc field st st' :
  _should_convert (dtype field) = false ->
  _check_field desc field st = (Ok tt, st') ->
  st' = st.
Proof.
  intros Hc. destruct (obj st !! name field) as [val|] eqn:Hval.
  - rewrite (_check_field_present _ _ _ _ Hval).
    assert (Hl : is_list (dtype field) = false).
    { apply _should_convert_false in Hc as [-> | [-> | ->]]; reflexivity. }
    unfold _check_present_field, mbind, getattr. rewrite Hval, Hl.
    set (m := lift (_check_scalar desc field val)).
    assert (Hset : forall st0,
      (let (r, st1) := m st in
       match r with
       | Ok a => setattr (name field) a st1
       | Raise e => (Raise e, st1)
       end) = (Ok tt, st0) -> st0 = st).
    { intros st0. subst m. unfold lift.
      destruct (_check_scalar desc field val) as [v|e] eqn:Hs; [|discriminate].
      apply (_check_scalar_no_conversion _ _ _ _ Hc) in Hs as ->.
      unfold setattr. intros [= <-]. rewrite (insert_id _ _ _ Hval). apply state_eta. }
    clearbody m.
    destruct (negb (allow_empty field)).
    + unfold mbind, lift. destruct (py_len val) as [n|e]; [|discriminate].
      unfold ret. destruct (Nat.eqb n 0); [discriminate | apply Hset].
    + apply Hset.
  - rewrite (_check_field_absent _ _ _ Hval).
    destruct (optional field); [congruence | discriminate].
Qed.

End Stored.

(** X9: a present scalar field that passes gets its converted value
    written back.  When the emptiness check passes or is switched off, the
    declared type admits the value as [val'] and the validator, if there is
    one, accepts [val'], [check_from_defs] returns and the record holds
    [val'] under the name of the field, every other attribute and the
    output being as before. *)
Theorem check_from_defs_stores_converted `{PyEnv} (desc : string) (field : Field)
    (st : state) (val val' : value) :
  obj st !! name field = Some val ->
  is_list (dtype field) = false ->
  allow_empty field = true \/ (exists n, py_len val = Ok (S n)) ->
  typed_as (dtype field) val val' ->
  match validator field with
  | Some check => exists u, check val' = Ok u
  | None => True
  end ->
  check_from_defs desc [field] st
  = (Ok tt, mkState (<[name field := val']> (obj st)) (stdout st)).
Proof.
  intros Hval Hl Hne Ht Hcheck.
  rewrite check_from_defs_cons, (_check_field_scalar _ _ _ _ Hval Hl Hne).
  assert (Hs : _check_scalar desc field val = Ok val').
  { destruct (validator field) as [check|] eqn:Hv.
    - destruct Hcheck as [u Hu]. exact (_check_scalar_validated _ _ _ _ _ _ Hv Ht Hu).
    - exact (_check_scalar_no_validator _ _ _ _ Hv Ht). }
  rewrite Hs. reflexivity.
Qed.

Lemma check_from_defs_stores_converted_witness :
  @check_from_defs example_env "entry" [flag_field] (mkState {["flag" := VStr "no"]} [])
  = (Ok tt, mkState (<[name flag_field := VBool true]> {["flag" := VStr "no"]}) []).
Proof.
  refine (@check_from_defs_stores_converted example_env "entry" flag_field
            (mkState {["flag" := VStr "no"]} []) (VStr "no") (VBool true)
            eq_refl eq_refl _ eq_refl I).
  right. exists 1. reflexivity.
Defined.

(** X10: a schema whose declared types are all among str, int and dict
    converts nothing: when [check_from_defs] returns for it, the record and
    the output are exactly as they were before the call. *)
Theorem check_from_defs_no_conversion `{PyEnv} (desc : string) (fields : list Field)
    (st st' : state) :
  Forall (fun f => _should_convert (dtype f) = false) fields ->
  check_from_defs desc fields st = (Ok tt, st') ->
  st' = st.
Proof.
  intros Hall. revert st. induction Hall as [|f fields Hf _ IH]; intros st.
  - intros [= <-]. reflexivity.
  - rewrite check_from_defs_cons.
    destruct (_check_field desc f st) as [[[]|e] st1] eqn:Hcf; [|discriminate].
    apply (_check_field_no_conversion _ _ _ _ Hf) in Hcf as ->. apply IH.
Qed.

Lemma check_from_defs_no_conversion_witness :
  mkState (<["title" := VStr "T"]> {["note" := VStr ""]}) []
  = mkState (<["title" := VStr "T"]> {["note" := VStr ""]}) [].
Proof.
  refine (@check_from_defs_no_conversion example_env "entry"
            [title_field; comment_field; note_field]
            (mkState (<["title" := VStr "T"]> {["note" := VStr ""]}) []) _ _ _).
  - repeat constructor.
  - vm_compute. reflexivity.
Defined.

(** X11: a record that has passed need not pass again.  When a scalar
    field with [allow_empty] false is converted to a value that has no
    length (a boolean, say), the record [check_from_defs] leaves makes the
    same call raise the TypeError of [len]. *)
Theorem check_from_defs_not_idempotent `{PyEnv} (desc : string) (field : Field)
    (st : state) (val val' : value) (n : nat) (e : exn) :
  obj st !! name field = Some val ->
  is_list (dtype field) = false ->
  allow_empty field = false ->
  py_len val = Ok (S n) ->
  typed_as (dtype field) val val' ->
  validator field = None ->
  py_len val' = Raise e ->
  check_from_defs desc [field] st
    = (Ok tt, mkState (<[name field := val']> (obj st)) (stdout st))
  /\ check_from_defs desc [field] (mkState (<[name field := val']> (obj st)) (stdout st))
    = (Raise e, mkState (<[name field := val']> (obj st)) (stdout st)).
Proof.
  intros Hval Hl Ha Hlen Ht Hv He. split.
  - rewrite check_from_defs_cons,
      (_check_field_scalar _ _ _ _ Hval Hl (or_intror (ex_intro _ n Hlen))).
    rewrite (_check_scalar_no_validator _ _ _ _ Hv Ht). reflexivity.
  - rewrite check_from_defs_cons.
    assert (Hval' : obj (mkState (<[name field := val']> (obj st)) (stdout st))
                      !! name field = Some val') by apply lookup_insert_eq.
    rewrite (_check_field_present _ _ _ _ Hval').
    unfold _check_present_field, mbind, getattr. rewrite Hval', Ha. simpl.
    unfold mbind, lift. rewrite He. reflexivity.
Qed.

Lemma check_from_defs_not_idempotent_witness :
  @check_from_defs example_env "entry" [flag_field] (mkState {["flag" := VStr "no"]} [])
    = (Ok tt, mkState (<[name flag_field := VBool true]> {["flag" := VStr "no"]}) [])
  /\ @check_from_defs example_env "entry" [flag_field]
       (mkState (<[name flag_field := VBool true]> {["flag" := VStr "no"]}) [])
    = (Raise (Exn TypeError "object of type 'bool' has no len()" None),
       mkState (<[name flag_field := VBool true]> {["flag" := VStr "no"]}) []).
Proof.
  exact (@check_from_defs_not_idempotent example_env "entry" flag_field
           (mkState {["flag" := VStr "no"]} []) (VStr "no") (VBool true) 1
           (Exn TypeError "object of type 'bool' has no len()" None)
           eq_refl eq_refl eq_refl eq_refl eq_refl eq_refl eq_refl).
Defined.

(** X12: a record that has none of the fields of a schema passes it
    when all of them are optional: [check_from_defs] returns and leaves the
    record and the output as they were. *)
Theorem check_from_defs_all_optional_absent `{PyEnv} (desc : string)
    (fields : list Field) (st : state) :
  Forall (fun f => optional f = true /\ obj st !! name f = None) fields ->
  check_from_defs desc fields st = (Ok tt, st).
Proof.
  induction 1 as [|f fields [Hopt Habs] _ IH].
  - reflexivity.
  - rewrite check_from_defs_cons, (_check_field_absent _ _ _ Habs), Hopt. exact IH.
Qed.

Lemma check_from_defs_all_optional_absent_witness :
  @check_from_defs example_env "entry" [comment_field; comment_field]
    (mkState {["title" := VStr "T"]} [])
  = (Ok tt, mkState {["title" := VStr "T"]} []).
Proof.
  refine (@check_from_defs_all_optional_absent example_env "entry"
            [comment_field; comment_field] (mkState {["title" := VStr "T"]} []) _).
  repeat constructor.
Defined.

(** ** More on the built-in validators *)

(** X13: on a string for which [validators.url] returns, the HTTP URL
    validator accepts exactly when the library accepts the string as a
    public URL and the string starts with "http:" or "https:", in lower
    case.  A string the library rejects gets the "invalid URL" error of
    [validate_url], not the HTTP one; an accepted URL with another scheme
    gets "must be an HTTP URL". *)
Theorem validate_http_url_accepts `{PyEnv} (s : string) :
  (validate_http_url (VStr s) = Ok tt <->
     validators_url_public (VStr s) = Ok true
     /\ (String.prefix "http:" s = true \/ String.prefix "https:" s = true))
  /\ (validators_url_public (VStr s) = Ok false ->
      validate_http_url (VStr s)
      = Raise (Exn LrgaspException ("invalid URL: " +:+ s) None))
  /\ (validators_url_public (VStr s) = Ok true ->
      String.prefix "http:" s = false -> String.prefix "https:" s = false ->
      validate_http_url (VStr s)
      = Raise (Exn LrgaspException ("must be an HTTP URL: " +:+ s) None)).
Proof.
  unfold validate_http_url, validate_url, startswith, bind.
  split; [|split].
  - destruct (validators_url_public (VStr s)) as [[]|e]; simpl.
    + destruct (String.prefix "http:" s); simpl.
      * split; auto.
      * destruct (String.prefix "https:" s); simpl.
        -- split; auto.
        -- split; [discriminate|]. intros [_ [Hp|Hp]]; discriminate.
    + split; [discriminate|]. intros [Hu _]. discriminate.
    + split; [discriminate|]. intros [Hu _]. discriminate.
  - intros ->. reflexivity.
  - intros -> -> ->. reflexivity.
Qed.

Lemma validate_http_url_accepts_witness :
  @validate_http_url example_env (VStr "https://example.com") = Ok tt
  /\ @validate_http_url example_env (VStr "ftp://example.com")
     = Raise (Exn (@LrgaspException example_env)
                ("must be an HTTP URL: " +:+ "ftp://example.com") None)
  /\ @validate_http_url example_env (VStr "HTTP://example.com")
     = Raise (Exn (@LrgaspException example_env)
                ("must be an HTTP URL: " +:+ "HTTP://example.com") None).
Proof.
  split; [|split].
  - refine (proj2 (proj1 (@validate_http_url_accepts example_env "https://example.com")) _).
    split; [reflexivity | right; reflexivity].
  - exact (proj2 (proj2 (@validate_http_url_accepts example_env "ftp://example.com"))
             eq_refl eq_refl eq_refl).
  - exact (proj2 (proj2 (@validate_http_url_accepts example_env "HTTP://example.com"))
             eq_refl eq_refl eq_refl).
Defined.

Lemma validate_md5_accepts_witness :
  @validate_md5 example_env (VStr "0123456789abcdefABCDEF0123456789") = Ok tt.
Proof.
  refine (proj2 (@validate_md5_accepts example_env "0123456789abcdefABCDEF0123456789") _).
  exists "0123456789abcdefABCDEF0123456789". repeat split. left. reflexivity.
Defined.
